(** * mas-sdk: the attestation client for Sui and Aptos

    A shallow embedding of [src/utils.ts], [src/sui/schema.ts] and
    [src/aptos/aas.ts], and the properties of the registry read path, the
    write path and the network resolver.

    Layout:
    - [Js]     the JavaScript values, errors and promises the code works with,
               and the base58 text encoding of the [bs58] package;
    - [Utils]  the network resolver of [src/utils.ts];
    - [Sui]    the [Schema] class and the read path of [src/sui/schema.ts];
    - [Aptos]  the [Aas] class and the view readers of [src/aptos/aas.ts];
    - [Toy]    small concrete ledgers on which the operations are run. *)

From Stdlib Require Import List String Ascii ZArith NArith Bool Lia.
From Stdlib.Strings Require Import Byte.
From Stdlib Require Import HexadecimalString.
Import ListNotations.

Set Warnings "-register-all".

Local Open Scope string_scope.
Local Open Scope list_scope.

(* ================================================================== *)
(** * JavaScript values, errors, promises *)
(* ================================================================== *)

Module Js.

(** A value of type [any]: what a JSON document of the node holds, plus
    [undefined], the result of reading a property that is not there.
    Numbers are the integers: the JSON rendering of Move values has no
    fractions (u8, u16 and u32 are numbers, wider integers are strings). *)
Inductive JsVal : Type :=
| JUndefined
| JNull
| JBool (b : bool)
| JNum (z : Z)
| JStr (s : string)
| JArr (l : list JsVal)
| JObj (props : list (string * JsVal)).

(** A thrown error: its class and its message. *)
Record JsError : Type := mkError { err_class : string; err_message : string }.

Definition Error (msg : string) : JsError := mkError "Error" msg.
Definition TypeError (msg : string) : JsError := mkError "TypeError" msg.

(** The outcome of an expression that may throw, and of an awaited promise:
    fulfilled with a value or rejected with an error. *)
Inductive Result (A : Type) : Type :=
| Ok (a : A)
| Throw (e : JsError).

Arguments Ok {A} a.
Arguments Throw {A} e.

Definition bind {A B : Type} (r : Result A) (k : A -> Result B) : Result B :=
  match r with
  | Ok a => k a
  | Throw e => Throw e
  end.

Definition is_ok {A : Type} (r : Result A) : bool :=
  match r with Ok _ => true | Throw _ => false end.

Definition rejects {A : Type} (r : Result A) : Prop :=
  exists e, r = Throw e.

(** [ToBoolean]. *)
Definition js_truthy (v : JsVal) : bool :=
  match v with
  | JUndefined | JNull => false
  | JBool b => b
  | JNum z => negb (Z.eqb z 0)
  | JStr s => negb (String.eqb s "")
  | JArr _ | JObj _ => true
  end.

Fixpoint lookup (k : string) (props : list (string * JsVal)) : JsVal :=
  match props with
  | [] => JUndefined
  | (k', v) :: rest => if String.eqb k k' then v else lookup k rest
  end.

(** [v.k] on a value that is neither [undefined] nor [null], for a name [k]
    that is not an array index: an own property of an object, [length] of an
    array or a string, and [undefined] in every other case (none of the names
    read by the code is inherited from a prototype). *)
Definition get (v : JsVal) (k : string) : JsVal :=
  match v with
  | JObj props => lookup k props
  | JArr l => if String.eqb k "length" then JNum (Z.of_nat (List.length l)) else JUndefined
  | JStr s => if String.eqb k "length" then JNum (Z.of_nat (String.length s)) else JUndefined
  | _ => JUndefined
  end.

(** [v.k]: reading a property of [undefined] or [null] throws. *)
Definition prop (v : JsVal) (k : string) : Result JsVal :=
  match v with
  | JUndefined =>
      Throw (TypeError ("Cannot read properties of undefined (reading '" ++ k ++ "')"))
  | JNull =>
      Throw (TypeError ("Cannot read properties of null (reading '" ++ k ++ "')"))
  | _ => Ok (get v k)
  end.

(** [v.k1.k2...]: the properties are read from left to right. *)
Fixpoint path (v : JsVal) (ks : list string) : Result JsVal :=
  match ks with
  | [] => Ok v
  | k :: rest =>
      match prop v k with
      | Ok x => path x rest
      | Throw e => Throw e
      end
  end.

(** [v[0]], on the same terms. *)
Definition first_element (v : JsVal) : Result JsVal :=
  match v with
  | JUndefined =>
      Throw (TypeError "Cannot read properties of undefined (reading '0')")
  | JNull =>
      Throw (TypeError "Cannot read properties of null (reading '0')")
  | JArr l => Ok (nth 0 l JUndefined)
  | JStr s =>
      Ok (match s with
          | EmptyString => JUndefined
          | String c _ => JStr (String c EmptyString)
          end)
  | JObj props => Ok (lookup "0" props)
  | _ => Ok JUndefined
  end.

(** [Promise.all]: fulfilled with every value, in the order of the promises,
    when all are fulfilled; rejected as soon as one is.  Which rejection wins
    is a matter of timing; the model reports the first in list order. *)
Fixpoint Promise_all {A : Type} (ps : list (Result A)) : Result (list A) :=
  match ps with
  | [] => Ok []
  | p :: rest =>
      match p with
      | Throw e => Throw e
      | Ok a =>
          match Promise_all rest with
          | Ok l => Ok (a :: l)
          | Throw e => Throw e
          end
      end
  end.

(** The parts of the runtime left open: the number conversion of a value that
    is not a number (string parsing and the like), the typed-array
    constructor on an argument that is neither an array nor absent (a length,
    an array-like object), and the hex parser of the Aptos SDK. *)
Class Runtime : Type := {
  ToUint8_other : JsVal -> byte;
  Uint8Array_other : JsVal -> Result (list byte);
  Hex_fromHexString : JsVal -> Result (list byte)
}.

Definition byte_of_Z (z : Z) : byte :=
  match Byte.of_N (Z.to_N (z mod 256)) with
  | Some b => b
  | None => x00
  end.

Definition Z_of_byte (b : byte) : Z := Z.of_N (Byte.to_N b).

Section Conversions.
Context {rt : Runtime}.

(** [ToUint8]: a number modulo 256. *)
Definition ToUint8 (v : JsVal) : byte :=
  match v with
  | JNum z => byte_of_Z z
  | _ => ToUint8_other v
  end.

(** [Uint8Array.from(l)] on an array. *)
Definition Uint8Array_from (l : list JsVal) : list byte := map ToUint8 l.

(** [new Uint8Array(v)]. *)
Definition new_Uint8Array (v : JsVal) : Result (list byte) :=
  match v with
  | JArr l => Ok (Uint8Array_from l)
  | JUndefined | JNull => Ok []
  | _ => Uint8Array_other v
  end.
End Conversions.

(** The JSON rendering of a Move [vector<u8>]: an array of numbers. *)
Definition json_of_bytes (bs : list byte) : JsVal :=
  JArr (map (fun b => JNum (Z_of_byte b)) bs).

(** A value that may be [undefined] or [null] (a field declared [?: T | null]
    in the SDK's types). *)
Inductive Optional (A : Type) : Type :=
| Undefined
| Null
| Present (a : A).

Arguments Undefined {A}.
Arguments Null {A}.
Arguments Present {A} a.

Definition cannot_read (what k : string) : JsError :=
  TypeError ("Cannot read properties of " ++ what ++ " (reading '" ++ k ++ "')").

(** ** base58, as the [bs58] package computes it

    The digits are kept least significant first; a byte is shifted in by
    [digits * 256 + byte] with the carry pushed as new digits; every leading
    zero byte of the source is one leading ['1'] of the text. *)

Definition ALPHABET : string :=
  "123456789ABCDEFGHJKLMNPQRSTUVWXYZabcdefghijkmnopqrstuvwxyz".

Definition alphabet_char (d : N) : ascii :=
  nth (N.to_nat d) (list_ascii_of_string ALPHABET) "1"%char.

Fixpoint push_carry (fuel : nat) (carry : N) : list N :=
  match fuel with
  | O => []
  | S fuel' =>
      if N.eqb carry 0 then []
      else (carry mod 58)%N :: push_carry fuel' (carry / 58)%N
  end.

Fixpoint muladd (digits : list N) (carry : N) : list N :=
  match digits with
  | [] => push_carry (N.to_nat carry) carry
  | d :: rest =>
      let c := (carry + 256 * d)%N in
      (c mod 58)%N :: muladd rest (c / 58)%N
  end.

Fixpoint skip_zeroes (source : list byte) : nat * list byte :=
  match source with
  | b :: rest =>
      if Byte.eqb b x00
      then let (zeroes, tail) := skip_zeroes rest in (S zeroes, tail)
      else (O, source)
  | [] => (O, [])
  end.

Definition b58_digits (source : list byte) : list N :=
  fold_left (fun digits b => muladd digits (Byte.to_N b)) source [].

Definition bs58_encode_bytes (source : list byte) : string :=
  let (zeroes, tail) := skip_zeroes source in
  string_of_list_ascii
    (repeat "1"%char zeroes ++ map alphabet_char (rev (b58_digits tail))).

Section Base58.
Context {rt : Runtime}.

(** [bs58.encode(v)]: an array is turned into bytes first; anything else that
    is not a byte array is refused. *)
Definition bs58_encode (v : JsVal) : Result string :=
  match v with
  | JArr l => Ok (bs58_encode_bytes (Uint8Array_from l))
  | _ => Throw (TypeError "Expected Uint8Array")
  end.
End Base58.

(** ** Asynchronous operations that change the ledger

    A write operation runs in a session: the world it acts on and the SDK
    calls it has made so far, in order. *)
Record Session (World Call : Type) : Type := {
  world : World;
  calls : list Call
}.

Arguments world {World Call} s.
Arguments calls {World Call} s.

Definition Async (World Call A : Type) : Type :=
  Session World Call -> Result A * Session World Call.

Definition async_bind {World Call A B : Type}
  (m : Async World Call A) (k : A -> Async World Call B) : Async World Call B :=
  fun s =>
    match m s with
    | (Ok a, s') => k a s'
    | (Throw e, s') => (Throw e, s')
    end.

(** An expression that does not touch the ledger. *)
Definition async_lift {World Call A : Type} (r : Result A) : Async World Call A :=
  fun s => (r, s).

(** An SDK call: it is recorded, and the world moves on. *)
Definition sdk_call {World Call A : Type}
  (c : Call) (f : World -> Result A * World) : Async World Call A :=
  fun s =>
    let (r, w') := f (world s) in
    (r, {| world := w'; calls := calls s ++ [c] |}).

Definition start_session {World Call : Type} (w : World) : Session World Call :=
  {| world := w; calls := [] |}.

End Js.

Export Js.

Declare Scope result_scope.
Delimit Scope result_scope with result.
Notation "x <- e ;; k" := (bind e (fun x => k))
  (at level 61, e at next level, right associativity) : result_scope.
Notation "x <~ e ;; k" := (async_bind e (fun x => k))
  (at level 61, e at next level, right associativity) : result_scope.
Local Open Scope result_scope.

(* ================================================================== *)
(** * src/utils.ts: the network resolver *)
(* ================================================================== *)

Module Utils.

(** One entry of [PACKAGES]. *)
Record PackageConfig : Type := {
  PackageID : string;
  SchemaRegistryID : string;
  AttestationRegistryID : string
}.

(** The [PACKAGES] table of [./constants], which the resolver reads and which
    is not part of the sources: it is a parameter of the resolver. *)
Record Packages : Type := {
  mainnet : PackageConfig;
  testnet : PackageConfig;
  devnet : PackageConfig
}.

(** The networks the [switch] statements know. *)
Definition known_networks : list string := ["mainnet"; "testnet"; "devnet"].

Definition known (network : string) : bool :=
  existsb (String.eqb network) known_networks.

Section Resolver.
Variable PACKAGES : Packages.

Definition getPackageId (network : string) : Result string :=
  if String.eqb network "mainnet" then Ok (PackageID (mainnet PACKAGES))
  else if String.eqb network "testnet" then Ok (PackageID (testnet PACKAGES))
  else if String.eqb network "devnet" then Ok (PackageID (devnet PACKAGES))
  else Throw (Error "Invalid network").

Definition getSchemaRegistryId (network : string) : Result string :=
  if String.eqb network "mainnet" then Ok (SchemaRegistryID (mainnet PACKAGES))
  else if String.eqb network "testnet" then Ok (SchemaRegistryID (testnet PACKAGES))
  else if String.eqb network "devnet" then Ok (SchemaRegistryID (devnet PACKAGES))
  else Throw (Error "Invalid network").

Definition getAttestationRegistryId (network : string) : Result string :=
  if String.eqb network "mainnet" then Ok (AttestationRegistryID (mainnet PACKAGES))
  else if String.eqb network "testnet" then Ok (AttestationRegistryID (testnet PACKAGES))
  else if String.eqb network "devnet" then Ok (AttestationRegistryID (devnet PACKAGES))
  else Throw (Error "Invalid network").
End Resolver.

(** The entry of the table for a known network. *)
Definition entry (P : Packages) (network : string) : option PackageConfig :=
  if String.eqb network "mainnet" then Some (mainnet P)
  else if String.eqb network "testnet" then Some (testnet P)
  else if String.eqb network "devnet" then Some (devnet P)
  else None.

Definition config_nonempty (c : PackageConfig) : Prop :=
  PackageID c <> "" /\ SchemaRegistryID c <> "" /\ AttestationRegistryID c <> "".

(** Every identifier of the configuration is filled in. *)
Definition packages_nonempty (P : Packages) : Prop :=
  config_nonempty (mainnet P) /\ config_nonempty (testnet P) /\
  config_nonempty (devnet P).

(** The error of the resolver on a network outside the configuration: the
    spec's ConfigurationError. *)
Definition ConfigurationError : JsError := Error "Invalid network".

End Utils.


(* ================================================================== *)
(** * src/sui/schema.ts *)
(* ================================================================== *)

Module Sui.

(** ** What the Sui SDK exchanges with a fullnode *)

Record ObjectResponseError : Type := { code : string }.

(** [SuiParsedData]: a Move object with its fields, or a package (which has
    no [fields]). *)
Inductive SuiParsedData : Type :=
| MoveObject (type : string) (fields : JsVal)
| Package (disassembled : JsVal).

Record SuiObjectData : Type := {
  objectId : string;
  content : Optional SuiParsedData
}.

Record SuiObjectResponse : Type := {
  data : Optional SuiObjectData;
  error : Optional ObjectResponseError
}.

Record DynamicFieldName : Type := { name_type : string; name_value : JsVal }.

Record DynamicFieldInfo : Type := {
  field_name : DynamicFieldName;
  field_objectId : string
}.

(** One page of [getDynamicFields]. *)
Record DynamicFieldPage : Type := {
  page_data : list DynamicFieldInfo;
  nextCursor : option string;
  hasNextPage : bool
}.

Record Ed25519Keypair : Type := { toSuiAddress : string }.

(** The arguments a transaction is built from ([tx.object], [tx.pure.*], and
    the results of earlier commands). *)
Inductive TransactionArgument : Type :=
| tx_object (id : string)
| tx_pure_vector_u8 (bytes : list byte)
| tx_pure_string (s : string)
| tx_pure_bool (b : bool)
| tx_Result (command : nat)
| tx_NestedResult (command index : nat).

Inductive Command : Type :=
| MoveCall (target : string) (arguments : list TransactionArgument)
| TransferObjects (objects : list TransactionArgument) (address : string).

Definition Transaction : Type := list Command.

Record TransactionEffects : Type := {
  status : string;
  created : list string
}.

Record SuiTransactionBlockResponse : Type := {
  digest : string;
  effects : option TransactionEffects
}.

(** ** The entities of the file *)

Record SuiSchema : Type := {
  schemaAddr : string;
  name : JsVal;
  description : JsVal;
  url : JsVal;
  creator : JsVal;
  createdAt : JsVal;
  schema : list byte;
  revokable : JsVal;
  resolver : JsVal;
  txHash : string
}.

Record Version : Type := { version_id : JsVal; version_version : JsVal }.

Record SchemaRegistry : Type := { registry_id : string; registry_version : Version }.

(** ** The collaborators of the file

    [World] is the state of the ledger as the fullnode serves it.  The
    helpers of [./utils] that the file imports with a (chain, network)
    signature are not part of the sources, and [SuiClient] belongs to the SDK:
    both are the interface the file is written against.  A read is a function
    of the world; a submission and a wait return the world they leave. *)
Class Env (World : Type) : Type := {
  SuiClient : Type;
  getClient : string -> string -> Result SuiClient;
  getPackageId : string -> string -> Result string;
  getSchemaRegistryId : string -> string -> Result string;
  getSchemaRegistryTableId : string -> string -> World -> Result string;
  client_getObject : SuiClient -> JsVal -> World -> Result SuiObjectResponse;
  client_getDynamicFields :
    SuiClient -> string -> option string -> World -> Result DynamicFieldPage;
  client_getDynamicFieldObject :
    SuiClient -> JsVal -> DynamicFieldName -> World -> Result SuiObjectResponse;
  client_signAndExecuteTransaction :
    SuiClient -> Ed25519Keypair -> Transaction -> World ->
    Result SuiTransactionBlockResponse * World;
  client_waitForTransaction :
    SuiClient -> string -> bool -> World ->
    Result SuiTransactionBlockResponse * World
}.

(** [d?.content]. *)
Definition optional_content (d : Optional SuiObjectData) : Optional SuiParsedData :=
  match d with
  | Present object => content object
  | _ => Undefined
  end.

(** [(c as any).fields]. *)
Definition content_fields (c : Optional SuiParsedData) : Result JsVal :=
  match c with
  | Undefined => Throw (cannot_read "undefined" "fields")
  | Null => Throw (cannot_read "null" "fields")
  | Present (MoveObject _ fields) => Ok fields
  | Present (Package _) => Ok JUndefined
  end.

Section Reads.
Context {rt : Runtime} {World : Type} {env : Env World}.

(** Lines 240-246 of [getSchema]: the resolver of the entity. *)
Definition resolver_of (fields : JsVal) : Result JsVal :=
  r <- prop fields "resolver" ;;
  if js_truthy r then
    rf <- prop r "fields" ;;
    if js_truthy rf then
      rules <- prop rf "rules" ;;
      config <- prop rf "config" ;;
      Ok (JObj [("rules", rules); ("config", config)])
    else Ok JNull
  else Ok JNull.

(** Lines 248-259 of [getSchema]: the entity returned for an object. *)
Definition schema_of_object (object : SuiObjectData) (fields : JsVal)
  : Result SuiSchema :=
  resolver <- resolver_of fields ;;
  schema_field <- prop fields "schema" ;;
  schema <- new_Uint8Array schema_field ;;
  name <- prop fields "name" ;;
  description <- prop fields "description" ;;
  url <- prop fields "url" ;;
  creator <- prop fields "creator" ;;
  revokable <- prop fields "revokable" ;;
  created_at <- prop fields "created_at" ;;
  tx_hash <- prop fields "tx_hash" ;;
  txHash <- bs58_encode tx_hash ;;
  Ok {| schemaAddr := objectId object;
        name := name;
        description := description;
        url := url;
        creator := creator;
        createdAt := created_at;
        schema := schema;
        revokable := revokable;
        resolver := resolver;
        txHash := txHash |}.

(** The message of the error thrown on [response.error]: the error is an
    object, and an object in a template string reads [[object Object]]. *)
Definition failed_to_fetch : JsError :=
  Error "Failed to fetch object: [object Object]".

Definition getSchema (id : JsVal) (chain network : string) (w : World)
  : Result SuiSchema :=
  client <- getClient chain network ;;
  response <- client_getObject client id w ;;
  match error response with
  | Present _ => Throw failed_to_fetch
  | _ =>
      match data response with
      | Present object =>
          match content object with
          | Present (MoveObject _ fields) => schema_of_object object fields
          | _ => Throw (Error "Invalid object data")
          end
      | _ => Throw (Error "Invalid object data")
      end
  end.

Definition getSchemaRegistry (chain network : string) (w : World)
  : Result SchemaRegistry :=
  client <- getClient chain network ;;
  schemaRegistryId <- getSchemaRegistryId chain network ;;
  response <- client_getObject client (JStr schemaRegistryId) w ;;
  match error response with
  | Present _ => Throw failed_to_fetch
  | _ =>
      match data response with
      | Present object =>
          fields <- content_fields (content object) ;;
          id <- path fields ["inner"; "fields"; "id"; "id"] ;;
          version <- path fields ["inner"; "fields"; "version"] ;;
          Ok {| registry_id := objectId object;
                registry_version :=
                  {| version_id := id; version_version := version |} |}
      | Null => Throw (cannot_read "null" "content")
      | Undefined => Throw (cannot_read "undefined" "content")
      end
  end.

(** The body of the callback mapped over [tableData.data] in [getSchemas]. *)
Definition fetch_entry (client : SuiClient) (chain network : string) (w : World)
  (dataItem : DynamicFieldInfo) : Result SuiSchema :=
  tableItem <- client_getObject client (JStr (field_objectId dataItem)) w ;;
  fields <- content_fields (optional_content (data tableItem)) ;;
  schemaId <- prop fields "name" ;;
  getSchema schemaId chain network w.

Definition getSchemas (chain network : string) (w : World)
  : Result (list SuiSchema) :=
  client <- getClient chain network ;;
  tableId <- getSchemaRegistryTableId chain network w ;;
  tableData <- client_getDynamicFields client tableId None w ;;
  Promise_all (map (fetch_entry client chain network w) (page_data tableData)).

(** The name under which the current table is looked up. *)
Definition version_key (v : Version) : DynamicFieldName :=
  {| name_type := "u64"; name_value := version_version v |}.

(** Line 326: the path from the dynamic field object to the table id. *)
Definition table_id_of (res : SuiObjectResponse) : Result JsVal :=
  fields <- content_fields (optional_content (data res)) ;;
  path fields ["value"; "fields"; "schema_records"; "fields"; "id"; "id"].

Definition getSchemaRegistryTable (chain network : string) (w : World)
  : Result JsVal :=
  client <- getClient chain network ;;
  schemaRegistry <- getSchemaRegistry chain network w ;;
  res <- client_getDynamicFieldObject client
           (version_id (registry_version schemaRegistry))
           (version_key (registry_version schemaRegistry)) w ;;
  table_id_of res.

(** The on-chain resolver field is absent: the record has no such field, or
    the field is [null] (an empty Move option). *)
Definition absent (v : JsVal) : Prop := v = JUndefined \/ v = JNull.

(** The resolver has inner fields: its [fields] property holds something. *)
Definition has_inner_fields (v : JsVal) : Prop :=
  js_truthy (get v "fields") = true.

(** Following the spec's words: the listing of a table with the continuation
    cursors followed until exhausted, the pages appended in order.  [fuel]
    bounds the number of pages read. *)
Fixpoint spec_listAllEntries (fuel : nat) (client : SuiClient) (tableId : string)
  (cursor : option string) (w : World) : Result (list DynamicFieldInfo) :=
  match fuel with
  | O => Throw (Error "listing not exhausted")
  | S fuel' =>
      page <- client_getDynamicFields client tableId cursor w ;;
      if hasNextPage page then
        rest <- spec_listAllEntries fuel' client tableId (nextCursor page) w ;;
        Ok (page_data page ++ rest)
      else Ok (page_data page)
  end.

End Reads.

(** ** The [Schema] class *)

(** The SDK calls of the write path. *)
Inductive SdkCall : Type :=
| SignAndExecuteTransaction (signer : Ed25519Keypair) (transaction : Transaction)
| WaitForTransaction (digest : string) (showEffects : bool).

Section Writes.
Context {rt : Runtime} {World : Type} {env : Env World}.

Record Schema : Type := {
  client : SuiClient;
  signer : Ed25519Keypair;
  packageId : string;
  network : string;
  chain : string
}.

Definition Schema_constructor (chain network : string) (signer : Ed25519Keypair)
  : Result Schema :=
  client <- getClient chain network ;;
  packageId <- getPackageId chain network ;;
  Ok {| client := client; signer := signer; packageId := packageId;
        network := network; chain := chain |}.

Definition signAndExecuteTransaction (self : Schema) (tx : Transaction)
  : Async World SdkCall SuiTransactionBlockResponse :=
  sdk_call (SignAndExecuteTransaction (signer self) tx)
           (client_signAndExecuteTransaction (client self) (signer self) tx).

Definition waitForTransaction (self : Schema) (digest : string) (showEffects : bool)
  : Async World SdkCall SuiTransactionBlockResponse :=
  sdk_call (WaitForTransaction digest showEffects)
           (client_waitForTransaction (client self) digest showEffects).

(** The transaction [new] builds. *)
Definition new_transaction (self : Schema) (schemaRegistryId : string)
  (schema : list byte) (name description url : string) (revokable : bool)
  : Transaction :=
  [ MoveCall (packageId self ++ "::schema::new")
      [ tx_object schemaRegistryId;
        tx_pure_vector_u8 schema;
        tx_pure_string name;
        tx_pure_string description;
        tx_pure_string url;
        tx_pure_bool revokable ];
    TransferObjects [tx_Result 0] (toSuiAddress (signer self)) ].

Definition Schema_new (self : Schema)
  (schema : list byte) (name description url : string) (revokable : bool)
  : Async World SdkCall SuiTransactionBlockResponse :=
  schemaRegistryId <~ async_lift (getSchemaRegistryId (chain self) (network self)) ;;
  result <~ signAndExecuteTransaction self
              (new_transaction self schemaRegistryId schema name description url revokable) ;;
  waitForTransaction self (digest result) true.

Definition newWithResolver_transaction (self : Schema) (schemaRegistryId : string)
  (schema : list byte) (name description url : string) (revokable : bool)
  : Transaction :=
  [ MoveCall (packageId self ++ "::schema::new_with_resolver")
      [ tx_object schemaRegistryId;
        tx_pure_vector_u8 schema;
        tx_pure_string name;
        tx_pure_string description;
        tx_pure_string url;
        tx_pure_bool revokable ];
    TransferObjects [tx_NestedResult 0 0; tx_NestedResult 0 1]
      (toSuiAddress (signer self)) ].

Definition Schema_newWithResolver (self : Schema)
  (schema : list byte) (name description url : string) (revokable : bool)
  : Async World SdkCall SuiTransactionBlockResponse :=
  schemaRegistryId <~ async_lift (getSchemaRegistryId (chain self) (network self)) ;;
  result <~ signAndExecuteTransaction self
              (newWithResolver_transaction self schemaRegistryId schema name
                 description url revokable) ;;
  waitForTransaction self (digest result) true.

Definition Schema_newResolverBuilder (self : Schema) (adminCap schemaId : string)
  : Async World SdkCall SuiTransactionBlockResponse :=
  signAndExecuteTransaction self
    [ MoveCall (packageId self ++ "::schema::new_resolver_builder")
        [tx_object adminCap; tx_object schemaId] ].

Definition Schema_addResolver (self : Schema) (schemaId resolverBuilder : string)
  : Async World SdkCall SuiTransactionBlockResponse :=
  signAndExecuteTransaction self
    [ MoveCall (packageId self ++ "::schema::add_resolver")
        [tx_object schemaId; tx_object resolverBuilder] ].

Definition Schema_newRequest (self : Schema) (schemaId name : string)
  : Async World SdkCall SuiTransactionBlockResponse :=
  signAndExecuteTransaction self
    [ MoveCall (packageId self ++ "::schema::new_request")
        [tx_object schemaId; tx_pure_string name];
      TransferObjects [tx_Result 0] (toSuiAddress (signer self)) ].

Definition startAttest_transaction (self : Schema) (schemaId : string)
  : Transaction :=
  [ MoveCall (packageId self ++ "::schema::start_attest") [tx_object schemaId] ].

Definition Schema_startAttest (self : Schema) (schemaId : string)
  : Async World SdkCall SuiTransactionBlockResponse :=
  signAndExecuteTransaction self (startAttest_transaction self schemaId).

Definition Schema_finishAttest (self : Schema) (schemaId request : string)
  : Async World SdkCall SuiTransactionBlockResponse :=
  signAndExecuteTransaction self
    [ MoveCall (packageId self ++ "::schema::finish_attest")
        [tx_object schemaId; tx_object request] ].

Definition Schema_getSchemaRegistry (self : Schema) (w : World)
  : Result SchemaRegistry :=
  getSchemaRegistry (chain self) (network self) w.

Definition Schema_getSchema (self : Schema) (id : string) (w : World)
  : Result SuiSchema :=
  getSchema (JStr id) (chain self) (network self) w.

End Writes.

Section Contract.
Context {World : Type} {env : Env World}.

(** The node serves [id] as a Move object whose [schema] field renders the
    bytes [B] and whose [tx_hash] field is an array. *)
Definition holds_schema_bytes (client : SuiClient) (w : World) (id : string)
  (B : list byte) : Prop :=
  exists response object type props hash,
    client_getObject client (JStr id) w = Ok response /\
    (error response = Undefined \/ error response = Null) /\
    data response = Present object /\
    content object = Present (MoveObject type (JObj props)) /\
    lookup "schema" props = json_of_bytes B /\
    lookup "tx_hash" props = JArr hash.

(** Modelled from the spec: the contract of the on-chain entry point
    [schema::new] of the deployed package, which is not part of the sources.
    A transaction that calls it with the registry, the schema bytes, the
    name, the description, the url and the revokable flag, once waited for,
    has created an object that the node serves as a schema record holding
    those raw schema bytes (spec, sections 3, 4.4 and 6). *)
Definition chain_registers_schemas (packageId : string) : Prop :=
  forall (client : SuiClient) (signer : Ed25519Keypair) (registryId : string)
         (B : list byte) (name description url : string) (revokable : bool)
         (w w1 w2 : World) (result receipt : SuiTransactionBlockResponse),
    client_signAndExecuteTransaction client signer
      [ MoveCall (packageId ++ "::schema::new")
          [ tx_object registryId; tx_pure_vector_u8 B; tx_pure_string name;
            tx_pure_string description; tx_pure_string url;
            tx_pure_bool revokable ];
        TransferObjects [tx_Result 0] (toSuiAddress signer) ] w = (Ok result, w1) ->
    client_waitForTransaction client (digest result) true w1 = (Ok receipt, w2) ->
    exists eff id,
      effects receipt = Some eff /\ In id (created eff) /\
      holds_schema_bytes client w2 id B.

End Contract.

Section Protocol.
Context {World : Type} {env : Env World}.

(** Following the spec's words (section 4.4, steps 2 to 4): the transaction
    is signed and submitted, the operation blocks until the chain reports it
    final, and the receipt of the wait is returned; a submission that is
    rejected is not waited for.  The run starts in the world [w] with no call
    made. *)
Definition submit_then_wait (self : Schema) (tx : Transaction) (w : World)
  : Result SuiTransactionBlockResponse * Session World SdkCall :=
  match client_signAndExecuteTransaction (client self) (signer self) tx w with
  | (Ok result, w1) =>
      let (receipt, w2) :=
        client_waitForTransaction (client self) (digest result) true w1 in
      (receipt,
       {| world := w2;
          calls := [ SignAndExecuteTransaction (signer self) tx;
                     WaitForTransaction (digest result) true ] |})
  | (Throw e, w1) =>
      (Throw e,
       {| world := w1; calls := [SignAndExecuteTransaction (signer self) tx] |})
  end.

(** The run of an operation that submits and returns at once. *)
Definition submit_only (self : Schema) (tx : Transaction) (w : World)
  : Result SuiTransactionBlockResponse * Session World SdkCall :=
  let (answer, w1) :=
    client_signAndExecuteTransaction (client self) (signer self) tx w in
  (answer, {| world := w1; calls := [SignAndExecuteTransaction (signer self) tx] |}).

(** A command stays within the bounds of the [Schema] object: a Move call
    goes to a function of the [schema] module of its package, a transfer goes
    to the address of its signer. *)
Definition command_within_bounds (self : Schema) (c : Command) : bool :=
  match c with
  | MoveCall target _ => String.prefix (packageId self ++ "::schema::") target
  | TransferObjects _ address => String.eqb address (toSuiAddress (signer self))
  end.

(** The node serves [id] as a Move object with these fields. *)
Definition serves (client : SuiClient) (w : World) (id : JsVal)
  (object : SuiObjectData) (fields : JsVal) : Prop :=
  exists response type,
    client_getObject client id w = Ok response /\
    data response = Present object /\
    content object = Present (MoveObject type fields).

Definition call_within_bounds (self : Schema) (c : SdkCall) : Prop :=
  match c with
  | SignAndExecuteTransaction s tx =>
      s = signer self /\ forallb (command_within_bounds self) tx = true
  | WaitForTransaction _ showEffects => showEffects = true
  end.

End Protocol.

End Sui.

(* ================================================================== *)
(** * src/aptos/aas.ts *)
(* ================================================================== *)

Module Aptos.

Record Account : Type := { accountAddress : string }.

Inductive FunctionArgument : Type :=
| arg_bytes (bytes : list byte)
| arg_string (s : string)
| arg_bool (b : bool)
| arg_number (n : Z).

Record InputEntryFunctionData : Type := {
  entry_function : string;
  functionArguments : list FunctionArgument
}.

Record PendingTransactionResponse : Type := { hash : string }.

Record CommittedTransactionResponse : Type := {
  committed_hash : string;
  success : bool
}.

Record AptosSchema : Type := {
  schemaAddr : string;
  name : JsVal;
  description : JsVal;
  url : JsVal;
  creator : JsVal;
  createdAt : JsVal;
  schema : list byte;
  revokable : JsVal;
  resolver : JsVal;
  txHash : JsVal
}.

Record AptosAttestation : Type := {
  attestationAddr : string;
  attestor : JsVal;
  recipient : JsVal;
  attestation_schemaAddr : JsVal;
  refAttestation : JsVal;
  time : JsVal;
  expirationTime : JsVal;
  revocationTime : JsVal;
  attestation_revokable : JsVal;
  data : list byte;
  attestation_txHash : JsVal
}.

(** The collaborators: [getPackageAddress] of [./utils] (not part of the
    sources) and the [Aptos] client of the SDK, one per network. *)
Class Env (World : Type) : Type := {
  getPackageAddress : string -> string -> Result string;
  SimpleTransaction : Type;
  client_build_simple :
    string -> string -> InputEntryFunctionData -> World -> Result SimpleTransaction;
  client_signAndSubmitTransaction :
    string -> Account -> SimpleTransaction -> World ->
    Result PendingTransactionResponse * World;
  client_waitForTransaction :
    string -> string -> World -> Result CommittedTransactionResponse * World;
  client_view : string -> string -> list JsVal -> World -> Result JsVal
}.

(** The SDK calls of the write path. *)
Inductive SdkCall : Type :=
| BuildSimple (sender : string) (data : InputEntryFunctionData)
| SignAndSubmitTransaction (signer : Account)
| WaitForTransaction (transactionHash : string).

Section Aas.
Context {rt : Runtime} {World : Type} {env : Env World}.

Record Aas : Type := {
  account : Account;
  network : string;
  packageId : string
}.

Definition Aas_constructor (account : Account) (network : string) : Result Aas :=
  packageId <- getPackageAddress "aptos" network ;;
  Ok {| account := account; network := network; packageId := packageId |}.

(** The three steps shared by the write operations: build, sign and submit,
    wait. *)
Definition build_simple (self : Aas) (data : InputEntryFunctionData)
  : Async World SdkCall SimpleTransaction :=
  sdk_call (BuildSimple (accountAddress (account self)) data)
    (fun w => (client_build_simple (network self)
                 (accountAddress (account self)) data w, w)).

Definition signAndSubmitTransaction (self : Aas) (transaction : SimpleTransaction)
  : Async World SdkCall PendingTransactionResponse :=
  sdk_call (SignAndSubmitTransaction (account self))
    (client_signAndSubmitTransaction (network self) (account self) transaction).

Definition waitForTransaction (self : Aas) (transactionHash : string)
  : Async World SdkCall CommittedTransactionResponse :=
  sdk_call (WaitForTransaction transactionHash)
    (client_waitForTransaction (network self) transactionHash).

(** The default of the [resolver] parameter of [createSchema]. *)
Definition default_resolver : string := "0x0".

Definition createSchema_data (self : Aas)
  (schema : list byte) (name description url : string) (revokable : bool)
  (resolver : option string) : InputEntryFunctionData :=
  {| entry_function := packageId self ++ "::aas::create_schema";
     functionArguments :=
       [ arg_bytes schema; arg_string name; arg_string description;
         arg_string url; arg_bool revokable;
         arg_string (match resolver with
                     | Some r => r
                     | None => default_resolver
                     end) ] |}.

Definition createSchema (self : Aas)
  (schema : list byte) (name description url : string) (revokable : bool)
  (resolver : option string)
  : Async World SdkCall CommittedTransactionResponse :=
  transaction <~ build_simple self
                   (createSchema_data self schema name description url revokable resolver) ;;
  tx <~ signAndSubmitTransaction self transaction ;;
  waitForTransaction self (hash tx).

Definition createAttestation (self : Aas)
  (recipient schemaAddr refAttestation : string) (expirationTime : Z)
  (revokable : bool) (data : list byte)
  : Async World SdkCall CommittedTransactionResponse :=
  transaction <~ build_simple self
    {| entry_function := packageId self ++ "::aas::create_attestation";
       functionArguments :=
         [ arg_string recipient; arg_string schemaAddr; arg_string refAttestation;
           arg_number expirationTime; arg_bool revokable; arg_bytes data ] |} ;;
  tx <~ signAndSubmitTransaction self transaction ;;
  waitForTransaction self (hash tx).

Definition revokeAttestation (self : Aas) (schemaAddr attestationAddr : string)
  : Async World SdkCall CommittedTransactionResponse :=
  transaction <~ build_simple self
    {| entry_function := packageId self ++ "::aas::revoke_attestation";
       functionArguments := [arg_string schemaAddr; arg_string attestationAddr] |} ;;
  tx <~ signAndSubmitTransaction self transaction ;;
  waitForTransaction self (hash tx).

(** Lines 121-134: the entity built from the view's answer, after the guard. *)
Definition schema_of_view (schemaAddr : string) (schemas : JsVal)
  : Result AptosSchema :=
  schema <- first_element schemas ;;
  name <- prop schema "name" ;;
  description <- prop schema "description" ;;
  url <- prop schema "url" ;;
  creator <- prop schema "creator" ;;
  created_at <- prop schema "created_at" ;;
  schema_hex <- prop schema "schema" ;;
  schema_bytes <- Hex_fromHexString schema_hex ;;
  revokable <- prop schema "revokable" ;;
  resolver <- prop schema "resolver" ;;
  tx_hash <- prop schema "tx_hash" ;;
  Ok {| schemaAddr := schemaAddr;
        name := name;
        description := description;
        url := url;
        creator := creator;
        createdAt := created_at;
        schema := schema_bytes;
        revokable := revokable;
        resolver := resolver;
        txHash := tx_hash |}.

Definition getAptosSchema (network schemaAddr : string) (w : World)
  : Result AptosSchema :=
  packageId <- getPackageAddress "aptos" network ;;
  schemas <- client_view network (packageId ++ "::schema::schema_data")
               [JStr schemaAddr] w ;;
  if negb (js_truthy schemas) then Throw (Error "Schema not found")
  else schema_of_view schemaAddr schemas.

(** Lines 153-167, after the guard. *)
Definition attestation_of_view (attestationAddr : string) (res : JsVal)
  : Result AptosAttestation :=
  attestation <- first_element res ;;
  attestor <- prop attestation "attestor" ;;
  recipient <- prop attestation "recipient" ;;
  schema <- prop attestation "schema" ;;
  ref_attestation <- prop attestation "ref_attestation" ;;
  time <- prop attestation "time" ;;
  expiration_time <- prop attestation "expiration_time" ;;
  revocation_time <- prop attestation "revocation_time" ;;
  revokable <- prop attestation "revokable" ;;
  data_hex <- prop attestation "data" ;;
  data <- Hex_fromHexString data_hex ;;
  tx_hash <- prop attestation "tx_hash" ;;
  Ok {| attestationAddr := attestationAddr;
        attestor := attestor;
        recipient := recipient;
        attestation_schemaAddr := schema;
        refAttestation := ref_attestation;
        time := time;
        expirationTime := expiration_time;
        revocationTime := revocation_time;
        attestation_revokable := revokable;
        data := data;
        attestation_txHash := tx_hash |}.

Definition getAptosAttestation (network attestationAddr : string) (w : World)
  : Result AptosAttestation :=
  packageId <- getPackageAddress "aptos" network ;;
  res <- client_view network (packageId ++ "::attestation::attestation_data")
           [JStr attestationAddr] w ;;
  if negb (js_truthy res) then Throw (Error "Attestation not found")
  else attestation_of_view attestationAddr res.

Definition Aas_getSchema (self : Aas) (schemaAddr : string) (w : World)
  : Result AptosSchema :=
  getAptosSchema (network self) schemaAddr w.

Definition Aas_getAttestation (self : Aas) (attestationAddr : string) (w : World)
  : Result AptosAttestation :=
  getAptosAttestation (network self) attestationAddr w.

End Aas.

Section Protocol.
Context {World : Type} {env : Env World}.

(** Following the spec's words (section 4.4): the transaction is built, then
    signed and submitted, then waited for, and the receipt of the wait is
    returned; a step that fails ends the run, and the steps after it are not
    taken.  The run starts in the world [w] with no call made. *)
Definition build_submit_wait (self : Aas) (data : InputEntryFunctionData) (w : World)
  : Result CommittedTransactionResponse * Session World SdkCall :=
  let built := BuildSimple (accountAddress (account self)) data in
  match client_build_simple (network self) (accountAddress (account self)) data w with
  | Throw e => (Throw e, {| world := w; calls := [built] |})
  | Ok transaction =>
      match client_signAndSubmitTransaction (network self) (account self)
              transaction w with
      | (Throw e, w1) =>
          (Throw e,
           {| world := w1;
              calls := [built; SignAndSubmitTransaction (account self)] |})
      | (Ok tx, w1) =>
          let (receipt, w2) := client_waitForTransaction (network self) (hash tx) w1 in
          (receipt,
           {| world := w2;
              calls := [ built; SignAndSubmitTransaction (account self);
                         WaitForTransaction (hash tx) ] |})
      end
  end.

(** A call stays within the bounds of the [Aas] object: a transaction is
    built for the address of its account and for a function of the [aas]
    module of its package, and is signed by its account. *)
Definition call_within_bounds (self : Aas) (c : SdkCall) : Prop :=
  match c with
  | BuildSimple sender data =>
      sender = accountAddress (account self) /\
      String.prefix (packageId self ++ "::aas::") (entry_function data) = true
  | SignAndSubmitTransaction signer => signer = account self
  | WaitForTransaction _ => True
  end.

End Protocol.

End Aptos.

(* ================================================================== *)
(** * Concrete ledgers *)
(* ================================================================== *)

Module Toy.

(** ** A runtime *)

Definition hex_digit (c : ascii) : option N :=
  let n := N_of_ascii c in
  if (48 <=? n)%N && (n <=? 57)%N then Some (n - 48)%N
  else if (97 <=? n)%N && (n <=? 102)%N then Some (n - 87)%N
  else if (65 <=? n)%N && (n <=? 70)%N then Some (n - 55)%N
  else None.

Fixpoint hex_bytes (s : string) : option (list byte) :=
  match s with
  | EmptyString => Some []
  | String a (String b rest) =>
      match hex_digit a, hex_digit b, hex_bytes rest with
      | Some h, Some l, Some bs =>
          match Byte.of_N (16 * h + l) with
          | Some x => Some (x :: bs)
          | None => None
          end
      | _, _, _ => None
      end
  | String _ EmptyString => None
  end.

Definition ParsingError (msg : string) : JsError := mkError "ParsingError" msg.

Definition fromHexString (v : JsVal) : Result (list byte) :=
  match v with
  | JStr s =>
      let input := if String.prefix "0x" s then String.substring 2 (String.length s - 2) s else s in
      if String.eqb input "" then Throw (ParsingError "Hex string is too short")
      else match hex_bytes input with
           | Some bs => Ok bs
           | None => Throw (ParsingError "Hex string is invalid")
           end
  | JUndefined => Throw (cannot_read "undefined" "startsWith")
  | JNull => Throw (cannot_read "null" "startsWith")
  | _ => Throw (TypeError "input.startsWith is not a function")
  end.

#[export] Instance runtime : Runtime := {|
  ToUint8_other := fun _ => x00;
  Uint8Array_other := fun _ => Ok [];
  Hex_fromHexString := fromHexString
|}.

(** ** A Sui ledger

    The answers of the fullnode are tables; a submitted transaction is
    executed at once and its effects are kept under its digest, where a wait
    finds them. *)
Record SuiWorld : Type := {
  objects : list (string * Sui.SuiObjectResponse);
  field_objects : list (string * string * string * Sui.SuiObjectResponse);
  listings : list (string * option string * Sui.DynamicFieldPage);
  executed : list (string * Sui.TransactionEffects);
  table_id : string;
  counter : nat
}.

Definition toy_package : string := "0xa11ce".
Definition toy_registry : string := "0x5c4e6a".

Definition not_found (code : string) : Sui.SuiObjectResponse :=
  {| Sui.data := Undefined; Sui.error := Present {| Sui.code := code |} |}.

Definition found (id type : string) (fields : JsVal) : Sui.SuiObjectResponse :=
  {| Sui.data :=
       Present {| Sui.objectId := id;
                  Sui.content := Present (Sui.MoveObject type fields) |};
     Sui.error := Undefined |}.

Fixpoint find_object (id : string) (l : list (string * Sui.SuiObjectResponse))
  : Sui.SuiObjectResponse :=
  match l with
  | [] => not_found "notExists"
  | (k, r) :: rest => if String.eqb id k then r else find_object id rest
  end.

Definition getObject (id : JsVal) (w : SuiWorld) : Result Sui.SuiObjectResponse :=
  match id with
  | JStr s => Ok (find_object s (objects w))
  | _ => Throw (Error "Invalid Sui Object id")
  end.

Definition option_string_eqb (a b : option string) : bool :=
  match a, b with
  | None, None => true
  | Some x, Some y => String.eqb x y
  | _, _ => false
  end.

Fixpoint find_page (parent : string) (cursor : option string)
  (l : list (string * option string * Sui.DynamicFieldPage)) : Sui.DynamicFieldPage :=
  match l with
  | [] => {| Sui.page_data := []; Sui.nextCursor := None; Sui.hasNextPage := false |}
  | (p, c, page) :: rest =>
      if String.eqb parent p && option_string_eqb cursor c then page
      else find_page parent cursor rest
  end.

Fixpoint find_field (parent type value : string)
  (l : list (string * string * string * Sui.SuiObjectResponse)) : Sui.SuiObjectResponse :=
  match l with
  | [] => not_found "dynamicFieldNotFound"
  | (p, t, v, r) :: rest =>
      if String.eqb parent p && String.eqb type t && String.eqb value v then r
      else find_field parent type value rest
  end.

Definition getDynamicFieldObject (parent : JsVal) (name : Sui.DynamicFieldName)
  (w : SuiWorld) : Result Sui.SuiObjectResponse :=
  match parent, Sui.name_value name with
  | JStr p, JStr v => Ok (find_field p (Sui.name_type name) v (field_objects w))
  | _, _ => Throw (Error "Invalid params")
  end.

(** Modelled from the spec: the on-chain program behind the entry point
    [schema::new] and the rendering of the record it creates, which are not
    part of the sources.  The record holds the name, description, url,
    creator, creation time, raw schema bytes, revokable flag, no resolver yet
    and the hash of its transaction (spec, sections 3 and 6); the node renders
    a Move [vector<u8>] as an array of numbers. *)
Definition schema_record (id creator : string) (schema : list byte)
  (name description url : string) (revokable : bool) (tx_hash : list byte) : JsVal :=
  JObj [ ("id", JObj [("id", JStr id)]);
         ("name", JStr name);
         ("description", JStr description);
         ("url", JStr url);
         ("creator", JStr creator);
         ("created_at", JStr "0");
         ("schema", json_of_bytes schema);
         ("revokable", JBool revokable);
         ("resolver", JNull);
         ("tx_hash", json_of_bytes tx_hash) ].

Definition fresh (n : nat) : string :=
  NilZero.string_of_uint (Nat.to_hex_uint n).

Definition schema_type : string := (toy_package ++ "::schema::Schema")%string.

(** The objects a transaction creates: the first command decides. *)
Definition execute (signer : Sui.Ed25519Keypair) (digest : string)
  (tx : Sui.Transaction) (w : SuiWorld)
  : Result (list (string * Sui.SuiObjectResponse)) :=
  match tx with
  | Sui.MoveCall target arguments :: _ =>
      if String.eqb target (toy_package ++ "::schema::new") then
        match arguments with
        | [ Sui.tx_object _; Sui.tx_pure_vector_u8 schema; Sui.tx_pure_string name;
            Sui.tx_pure_string description; Sui.tx_pure_string url;
            Sui.tx_pure_bool revokable ] =>
            let id := ("0x5c" ++ fresh (counter w))%string in
            Ok [ (id, found id schema_type
                        (schema_record id (Sui.toSuiAddress signer) schema name
                           description url revokable (list_byte_of_string digest))) ]
        | _ => Throw (Error "arity mismatch")
        end
      else if String.eqb target (toy_package ++ "::schema::start_attest") then Ok []
      else Throw (Error "function not found")
  | _ => Throw (Error "nothing to execute")
  end.

Definition signAndExecuteTransaction (signer : Sui.Ed25519Keypair)
  (tx : Sui.Transaction) (w : SuiWorld)
  : Result Sui.SuiTransactionBlockResponse * SuiWorld :=
  let digest := ("tx" ++ fresh (counter w))%string in
  match execute signer digest tx w with
  | Throw e => (Throw e, w)
  | Ok new_objects =>
      (Ok {| Sui.digest := digest; Sui.effects := None |},
       {| objects := new_objects ++ objects w;
          field_objects := field_objects w;
          listings := listings w;
          executed :=
            (digest, {| Sui.status := "success";
                        Sui.created := map fst new_objects |}) :: executed w;
          table_id := table_id w;
          counter := S (counter w) |})
  end.

Fixpoint find_effects (digest : string) (l : list (string * Sui.TransactionEffects))
  : option Sui.TransactionEffects :=
  match l with
  | [] => None
  | (d, e) :: rest => if String.eqb digest d then Some e else find_effects digest rest
  end.

Definition waitForTransaction (digest : string) (showEffects : bool) (w : SuiWorld)
  : Result Sui.SuiTransactionBlockResponse * SuiWorld :=
  match find_effects digest (executed w) with
  | Some e =>
      (Ok {| Sui.digest := digest;
             Sui.effects := if showEffects then Some e else None |}, w)
  | None => (Throw (Error "transaction not found in time"), w)
  end.

Definition resolve {A : Type} (chain network : string) (a : A) : Result A :=
  if String.eqb chain "sui" && String.eqb network "testnet" then Ok a
  else Throw (Error "Invalid network").

#[export] Instance sui_env : Sui.Env SuiWorld := {|
  Sui.SuiClient := unit;
  Sui.getClient := fun chain network => resolve chain network tt;
  Sui.getPackageId := fun chain network => resolve chain network toy_package;
  Sui.getSchemaRegistryId := fun chain network => resolve chain network toy_registry;
  Sui.getSchemaRegistryTableId :=
    fun chain network w => resolve chain network (table_id w);
  Sui.client_getObject := fun _ => getObject;
  Sui.client_getDynamicFields :=
    fun _ parent cursor w => Ok (find_page parent cursor (listings w));
  Sui.client_getDynamicFieldObject := fun _ => getDynamicFieldObject;
  Sui.client_signAndExecuteTransaction := fun _ => signAndExecuteTransaction;
  Sui.client_waitForTransaction := fun _ => waitForTransaction
|}.

(** The one client there is. *)
Definition client : @Sui.SuiClient SuiWorld sui_env := tt.

(** The [Schema] object of a caller on the test network. *)
Definition schema_api (address : string) : @Sui.Schema SuiWorld sui_env :=
  {| Sui.client := client;
     Sui.signer := {| Sui.toSuiAddress := address |};
     Sui.packageId := toy_package;
     Sui.network := "testnet";
     Sui.chain := "sui" |}.

(** ** A ledger with a registry at version 2 and a table listed in two pages *)

Definition registry_fields (version : string) : JsVal :=
  JObj [ ("id", JObj [("id", JStr toy_registry)]);
         ("inner",
          JObj [ ("type", JStr "0x2::versioned::Versioned");
                 ("fields",
                  JObj [ ("id", JObj [("id", JStr "0x1ee7")]);
                         ("version", JStr version) ]) ]) ].

Definition table_holder (table : string) : JsVal :=
  JObj [ ("name", JStr "2");
         ("value",
          JObj [ ("fields",
                  JObj [ ("schema_records",
                          JObj [ ("fields",
                                  JObj [ ("id", JObj [("id", JStr table)]);
                                         ("size", JStr "2") ]) ]) ]) ]) ].

Definition table_entry (key : string) : JsVal :=
  JObj [ ("id", JObj [("id", JStr ("0xf" ++ key)%string)]);
         ("name", JStr key);
         ("value", JStr key) ].

Definition entry_info (key : string) : Sui.DynamicFieldInfo :=
  {| Sui.field_name := {| Sui.name_type := "address"; Sui.name_value := JStr key |};
     Sui.field_objectId := ("0xf" ++ key)%string |}.

Definition alice : string := "0xa71ce".

(** A schema whose resolver is attached. *)
Definition resolved_record : JsVal :=
  JObj [ ("id", JObj [("id", JStr "53")]);
         ("name", JStr "three");
         ("schema", json_of_bytes [x04]);
         ("resolver",
          JObj [ ("type", JStr "schema::Resolver");
                 ("fields",
                  JObj [ ("rules", JObj [("contents", JArr [])]);
                         ("config", JStr "0xc0f1") ]) ]);
         ("tx_hash", json_of_bytes [x00; x00; x01]) ].

Definition ledger_at (version : string) : SuiWorld :=
  {| objects :=
       [ (toy_registry, found toy_registry "schema_registry::SchemaRegistry"
                          (registry_fields version));
         ("0xf51", found "0xf51" "0x2::dynamic_field::Field" (table_entry "51"));
         ("0xf52", found "0xf52" "0x2::dynamic_field::Field" (table_entry "52"));
         ("51", found "51" schema_type
                  (schema_record "51" alice [x01; x02] "one" "" "" true [x00; x01]));
         ("52", found "52" schema_type
                  (schema_record "52" alice [x03] "two" "" "" false [x02]));
         ("53", found "53" schema_type resolved_record) ];
     field_objects :=
       [ ("0x1ee7", "u64", "1", found "0xd1" "0x2::dynamic_field::Field"
                                   (table_holder "0x01d"));
         ("0x1ee7", "u64", "2", found "0xd2" "0x2::dynamic_field::Field"
                                   (table_holder "0x7ab1e")) ];
     listings :=
       [ ("0x7ab1e", None,
          {| Sui.page_data := [entry_info "51"];
             Sui.nextCursor := Some "0xf51";
             Sui.hasNextPage := true |});
         ("0x7ab1e", Some "0xf51",
          {| Sui.page_data := [entry_info "52"];
             Sui.nextCursor := Some "0xf52";
             Sui.hasNextPage := false |}) ];
     executed := [];
     table_id := "0x7ab1e";
     counter := 0 |}.

(** The registry points at version 2, whose table exists. *)
Definition ledger : SuiWorld := ledger_at "2".

(** The registry points at version 3, under which nothing is stored. *)
Definition stale_ledger : SuiWorld := ledger_at "3".

(** The one page of the listing names an entry whose object is gone. *)
Definition broken_ledger : SuiWorld :=
  {| objects := objects ledger;
     field_objects := field_objects ledger;
     listings :=
       [ ("0x7ab1e", None,
          {| Sui.page_data := [entry_info "51"; entry_info "54"];
             Sui.nextCursor := None;
             Sui.hasNextPage := false |}) ];
     executed := [];
     table_id := "0x7ab1e";
     counter := 0 |}.

(** ** A configuration table *)
Definition packages : Utils.Packages :=
  {| Utils.mainnet :=
       {| Utils.PackageID := "0x3a1";
          Utils.SchemaRegistryID := "0x3a2";
          Utils.AttestationRegistryID := "0x3a3" |};
     Utils.testnet :=
       {| Utils.PackageID := toy_package;
          Utils.SchemaRegistryID := toy_registry;
          Utils.AttestationRegistryID := "0xa77e57" |};
     Utils.devnet :=
       {| Utils.PackageID := "0xde1";
          Utils.SchemaRegistryID := "0xde2";
          Utils.AttestationRegistryID := "0xde3" |} |}.

(** ** An Aptos ledger: the answer of the view function and the entry
    functions submitted so far *)
Record AptosWorld : Type := {
  view_answer : Result JsVal;
  submitted : list Aptos.InputEntryFunctionData
}.

#[export] Instance aptos_env : Aptos.Env AptosWorld := {|
  Aptos.getPackageAddress := fun chain network =>
    if String.eqb chain "aptos" && String.eqb network "testnet" then Ok toy_package
    else Throw (Error "Invalid network");
  Aptos.SimpleTransaction := Aptos.InputEntryFunctionData;
  Aptos.client_build_simple := fun _ _ data _ => Ok data;
  Aptos.client_signAndSubmitTransaction := fun _ _ transaction w =>
    (Ok {| Aptos.hash := ("0x" ++ fresh (List.length (submitted w)))%string |},
     {| view_answer := view_answer w; submitted := submitted w ++ [transaction] |});
  Aptos.client_waitForTransaction := fun _ transactionHash w =>
    (Ok {| Aptos.committed_hash := transactionHash; Aptos.success := true |}, w);
  Aptos.client_view := fun _ _ _ w => view_answer w
|}.

(** What [schema::schema_data] answers for a schema: its hash is a hex
    string. *)
Definition schema_data : JsVal :=
  JObj [ ("name", JStr "one");
         ("description", JStr "");
         ("url", JStr "");
         ("creator", JStr alice);
         ("created_at", JStr "0");
         ("schema", JStr "0x0102");
         ("revokable", JBool true);
         ("resolver", JStr "0x0");
         ("tx_hash", JStr "0x00") ].

Definition aptos_ledger (answer : JsVal) : AptosWorld :=
  {| view_answer := Ok answer; submitted := [] |}.

(** ** Further ledgers *)

(** The ledger with more objects served, each before the ones it has. *)
Definition ledger_with (more : list (string * Sui.SuiObjectResponse)) : SuiWorld :=
  {| objects := more ++ objects ledger;
     field_objects := field_objects ledger;
     listings := listings ledger;
     executed := [];
     table_id := table_id ledger;
     counter := 0 |}.

(** The ledger with its registry pointing at a table that lists nothing. *)
Definition empty_table_ledger : SuiWorld :=
  {| objects := objects ledger;
     field_objects := field_objects ledger;
     listings := listings ledger;
     executed := [];
     table_id := "0xe3971";
     counter := 0 |}.

(** A schema record without the hash of its transaction. *)
Definition unhashed_record : JsVal :=
  JObj [ ("name", JStr "four"); ("schema", JArr [JNum 260; JNum (-1)]) ].

(** A registry whose inner object has an id and no version. *)
Definition unversioned_registry : JsVal :=
  JObj [ ("inner",
          JObj [ ("fields", JObj [ ("id", JObj [("id", JStr "0x1ee7")]) ]) ]) ].

(** What [attestation::attestation_data] answers for an attestation. *)
Definition attestation_data : JsVal :=
  JObj [ ("attestor", JStr alice);
         ("recipient", JStr "0xb0b");
         ("schema", JStr "0x51");
         ("ref_attestation", JStr "0x0");
         ("time", JStr "10");
         ("expiration_time", JStr "0");
         ("revocation_time", JStr "0");
         ("revokable", JBool true);
         ("data", JStr "0xff00");
         ("tx_hash", JStr "0x00") ].

(** The [Aas] object of a caller on the test network. *)
Definition aas_api (address : string) : Aptos.Aas :=
  {| Aptos.account := {| Aptos.accountAddress := address |};
     Aptos.network := "testnet";
     Aptos.packageId := toy_package |}.

(** ** A chain that reports finality after the submission

    Modelled from the spec (section 4.4, step 3, and the glossary): submitting
    a transaction and the chain reporting it final are two events.  A
    submission is answered at once with the digest of the transaction, which
    is then in flight; the transaction is final once the chain has been
    waited on for it. *)
Record LazyWorld : Type := {
  in_flight : list string;
  finalized : list string
}.

Definition is_final (w : LazyWorld) (digest : string) : bool :=
  existsb (String.eqb digest) (finalized w).

Definition lazy_submit (w : LazyWorld)
  : Result Sui.SuiTransactionBlockResponse * LazyWorld :=
  let digest :=
    ("tx" ++ fresh (List.length (in_flight w) + List.length (finalized w)))%string in
  (Ok {| Sui.digest := digest; Sui.effects := None |},
   {| in_flight := digest :: in_flight w; finalized := finalized w |}).

Definition lazy_wait (digest : string) (showEffects : bool) (w : LazyWorld)
  : Result Sui.SuiTransactionBlockResponse * LazyWorld :=
  if existsb (String.eqb digest) (in_flight w ++ finalized w) then
    (Ok {| Sui.digest := digest;
           Sui.effects :=
             if showEffects
             then Some {| Sui.status := "success"; Sui.created := [] |}
             else None |},
     {| in_flight := filter (fun d => negb (String.eqb digest d)) (in_flight w);
        finalized := digest :: finalized w |})
  else (Throw (Error "transaction not found in time"), w).

Definition lazy_env : Sui.Env LazyWorld := {|
  Sui.SuiClient := unit;
  Sui.getClient := fun chain network => resolve chain network tt;
  Sui.getPackageId := fun chain network => resolve chain network toy_package;
  Sui.getSchemaRegistryId := fun chain network => resolve chain network toy_registry;
  Sui.getSchemaRegistryTableId := fun chain network _ => resolve chain network "0x7ab1e";
  Sui.client_getObject := fun _ _ _ => Ok (not_found "notExists");
  Sui.client_getDynamicFields := fun _ _ _ _ =>
    Ok {| Sui.page_data := []; Sui.nextCursor := None; Sui.hasNextPage := false |};
  Sui.client_getDynamicFieldObject := fun _ _ _ _ =>
    Ok (not_found "dynamicFieldNotFound");
  Sui.client_signAndExecuteTransaction := fun _ _ _ => lazy_submit;
  Sui.client_waitForTransaction := fun _ => lazy_wait
|}.

(** The [Schema] object of a caller on that chain. *)
Definition lazy_api (address : string) : @Sui.Schema LazyWorld lazy_env :=
  @Sui.Build_Schema LazyWorld lazy_env tt {| Sui.toSuiAddress := address |}
    toy_package "testnet" "sui".

Definition lazy_ledger : LazyWorld := {| in_flight := []; finalized := [] |}.

End Toy.

(* ================================================================== *)
(** * Positional numerals, to speak about base58 *)
(* ================================================================== *)

Module Numerals.

(** The number a list of digits stands for, least significant digit first. *)
Fixpoint le_value (base : N) (digits : list N) : N :=
  match digits with
  | [] => 0
  | d :: rest => d + base * le_value base rest
  end.

(** The number a byte sequence stands for, most significant byte first,
    with [acc] standing before it. *)
Definition be_value (acc : N) (source : list byte) : N :=
  fold_left (fun acc b => (256 * acc + Byte.to_N b)%N) source acc.

(** No digit is wasted: the most significant digit, when there is one, is
    not zero. *)
Definition canonical (digits : list N) : Prop := last digits 1%N <> 0%N.

Definition bounded (base : N) (digits : list N) : Prop :=
  Forall (fun d => (d < base)%N) digits.

(** The place of a character in a list of characters (the length of the list
    when it is not there). *)
Fixpoint index_of (c : ascii) (l : list ascii) : N :=
  match l with
  | [] => 0
  | x :: rest => if Ascii.eqb c x then 0 else N.succ (index_of c rest)
  end.

Definition alphabet_index (c : ascii) : N :=
  index_of c (list_ascii_of_string ALPHABET).

End Numerals.

(* ================================================================== *)
(** * Properties *)
(* ================================================================== *)

Import Toy.

(** ** Values and promises *)

Lemma bind_ok {A B : Type} (r : Result A) (k : A -> Result B) (b : B) :
  bind r k = Ok b -> exists a, r = Ok a /\ k a = Ok b.
Proof.
  destruct r as [a | e]; simpl; intro H.
  - exists a. split; [reflexivity | exact H].
  - discriminate H.
Qed.

Lemma prop_truthy (v : JsVal) (k : string) :
  js_truthy v = true -> prop v k = Ok (get v k).
Proof. destruct v; simpl; intro H; try reflexivity; discriminate H. Qed.

Lemma prop_object (props : list (string * JsVal)) (k : string) :
  prop (JObj props) k = Ok (get (JObj props) k).
Proof. reflexivity. Qed.

Lemma prop_ok_get (v : JsVal) (k : string) (x : JsVal) :
  prop v k = Ok x -> x = get v k.
Proof. destruct v; simpl; intro H; inversion H; reflexivity. Qed.

Lemma Promise_all_ok_length {A : Type} (ps : list (Result A)) (l : list A) :
  Promise_all ps = Ok l -> List.length l = List.length ps.
Proof.
  revert l. induction ps as [| p rest IH]; simpl; intros l H.
  - inversion H. reflexivity.
  - destruct p as [a | e]; [| discriminate H].
    destruct (Promise_all rest) as [l' | e]; [| discriminate H].
    inversion H. simpl. f_equal. apply IH. reflexivity.
Qed.

(** [Promise.all] is fulfilled exactly when every promise is, with the values
    in the order of the promises. *)
Lemma Promise_all_Forall2 {A : Type} (ps : list (Result A)) (l : list A) :
  Promise_all ps = Ok l <-> Forall2 (fun p a => p = Ok a) ps l.
Proof.
  split.
  - revert l. induction ps as [| p rest IH]; simpl; intros l H.
    + inversion H. constructor.
    + destruct p as [a | e]; [| discriminate H].
      destruct (Promise_all rest) as [l' | e]; [| discriminate H].
      inversion H. constructor; [reflexivity | apply IH; reflexivity].
  - induction 1 as [| p a ps' l' Hp _ IH]; simpl.
    + reflexivity.
    + rewrite Hp, IH. reflexivity.
Qed.

(** One rejected promise rejects the whole. *)
Lemma Promise_all_rejects {A : Type} (ps : list (Result A)) (p : Result A) :
  In p ps -> rejects p -> rejects (Promise_all ps).
Proof.
  intros Hin [e He]. subst p.
  induction ps as [| q rest IH]; simpl in *.
  - contradiction.
  - destruct q as [a | e'].
    + destruct Hin as [Heq | Hin]; [discriminate Heq |].
      destruct (IH Hin) as [e'' He'']. rewrite He''. exists e''. reflexivity.
    + exists e'. reflexivity.
Qed.

Lemma byte_of_Z_of_byte (b : byte) : byte_of_Z (Z_of_byte b) = b.
Proof. destruct b; reflexivity. Qed.

(** Reading the rendering of a byte vector back into a byte array gives the
    bytes. *)
Lemma new_Uint8Array_json_of_bytes {rt : Runtime} (bs : list byte) :
  new_Uint8Array (json_of_bytes bs) = Ok bs.
Proof.
  unfold json_of_bytes, new_Uint8Array, Uint8Array_from. f_equal.
  rewrite map_map. induction bs as [| b rest IH]; simpl.
  - reflexivity.
  - f_equal; [apply byte_of_Z_of_byte | exact IH].
Qed.

(** ** base58 *)

Example bs58_hello :
  bs58_encode_bytes (list_byte_of_string "Hello World!") = "2NEpo7TZRRrLZSi2U".
Proof. vm_compute. reflexivity. Qed.

Example bs58_leading_zeroes :
  bs58_encode_bytes [x00; x00; x01] = "112".
Proof. vm_compute. reflexivity. Qed.

Example bs58_vectors :
  bs58_encode_bytes [] = "" /\
  bs58_encode_bytes (list_byte_of_string "abc") = "ZiCa" /\
  bs58_encode_bytes [x51; x6b; x6f; xcd; x0f] = "ABnLTmg" /\
  bs58_encode_bytes [x00; x00; x00; x00] = "1111".
Proof. vm_compute. repeat split. Qed.

(** The text never holds the character 0, which is not in the alphabet. *)
Lemma alphabet_char_not_zero (d : N) : alphabet_char d <> "0"%char.
Proof.
  unfold alphabet_char.
  destruct (nth_in_or_default (N.to_nat d) (list_ascii_of_string ALPHABET) "1"%char)
    as [Hin | Hdef].
  - revert Hin. generalize (nth (N.to_nat d) (list_ascii_of_string ALPHABET) "1"%char).
    intros c Hin. vm_compute in Hin.
    repeat (destruct Hin as [<- | Hin]; [discriminate |]).
    contradiction.
  - rewrite Hdef. discriminate.
Qed.

Lemma bs58_encode_bytes_no_zero (source : list byte) :
  ~ In "0"%char (list_ascii_of_string (bs58_encode_bytes source)).
Proof.
  unfold bs58_encode_bytes. destruct (skip_zeroes source) as [zeroes tail].
  rewrite list_ascii_of_string_of_list_ascii. intro Hin.
  apply in_app_or in Hin. destruct Hin as [Hin | Hin].
  - apply repeat_spec in Hin. discriminate Hin.
  - apply in_map_iff in Hin. destruct Hin as [d [Hd _]].
    exact (alphabet_char_not_zero d Hd).
Qed.

(** No byte sequence is encoded as a text that starts with 0. *)
Lemma bs58_encode_bytes_not_hex (source : list byte) (rest : string) :
  bs58_encode_bytes source <> String "0"%char rest.
Proof.
  intro H. apply (bs58_encode_bytes_no_zero source).
  rewrite H. simpl. left. reflexivity.
Qed.

(** ** The network resolver *)

Lemma known_cases (network : string) :
  Utils.known network = true <->
  network = "mainnet" \/ network = "testnet" \/ network = "devnet".
Proof.
  unfold Utils.known, Utils.known_networks. simpl.
  rewrite !orb_true_iff, !String.eqb_eq. intuition discriminate.
Qed.

(** C5. The resolver of [src/utils.ts] is keyed by the network (it serves the
    Sui deployment).  For a network of the known set, [getPackageId],
    [getSchemaRegistryId] and [getAttestationRegistryId] return the
    identifiers of its entry in the configuration, which are not empty when
    the configuration is filled in; for any other network each of them throws
    the configuration error [Error('Invalid network')]. *)
Theorem resolver_known_or_ConfigurationError
  (PACKAGES : Utils.Packages) (network : string) :
  Utils.packages_nonempty PACKAGES ->
  (Utils.known network = true ->
   exists c,
     Utils.entry PACKAGES network = Some c /\
     Utils.getPackageId PACKAGES network = Ok (Utils.PackageID c) /\
     Utils.PackageID c <> "" /\
     Utils.getSchemaRegistryId PACKAGES network = Ok (Utils.SchemaRegistryID c) /\
     Utils.SchemaRegistryID c <> "" /\
     Utils.getAttestationRegistryId PACKAGES network =
       Ok (Utils.AttestationRegistryID c) /\
     Utils.AttestationRegistryID c <> "") /\
  (Utils.known network = false ->
   Utils.getPackageId PACKAGES network = Throw Utils.ConfigurationError /\
   Utils.getSchemaRegistryId PACKAGES network = Throw Utils.ConfigurationError /\
   Utils.getAttestationRegistryId PACKAGES network = Throw Utils.ConfigurationError).
Proof.
  intros [[Hm1 [Hm2 Hm3]] [[Ht1 [Ht2 Ht3]] [Hd1 [Hd2 Hd3]]]].
  unfold Utils.known, Utils.known_networks, Utils.entry, Utils.getPackageId,
    Utils.getSchemaRegistryId, Utils.getAttestationRegistryId. simpl.
  destruct (String.eqb network "mainnet");
    [| destruct (String.eqb network "testnet");
       [| destruct (String.eqb network "devnet")]];
    simpl; split; intro H; try discriminate H.
  - exists (Utils.mainnet PACKAGES). repeat split; assumption.
  - exists (Utils.testnet PACKAGES). repeat split; assumption.
  - exists (Utils.devnet PACKAGES). repeat split; assumption.
  - repeat split.
Qed.

Lemma packages_filled_in : Utils.packages_nonempty Toy.packages.
Proof. repeat split; discriminate. Qed.

Lemma resolver_known_or_ConfigurationError_witness :
  Utils.getPackageId Toy.packages "testnet" = Ok Toy.toy_package /\
  Toy.toy_package <> "" /\
  Utils.getSchemaRegistryId Toy.packages "localnet" = Throw Utils.ConfigurationError.
Proof.
  destruct (resolver_known_or_ConfigurationError Toy.packages "testnet"
              packages_filled_in) as [Hknown _].
  destruct (Hknown eq_refl) as [c [Hc [Hp [Hne _]]]].
  vm_compute in Hc. inversion Hc; subst c.
  destruct (resolver_known_or_ConfigurationError Toy.packages "localnet"
              packages_filled_in) as [_ Hunknown].
  destruct (Hunknown eq_refl) as [_ [Hs _]].
  repeat split; assumption.
Defined.

(** ** The read path of [src/sui/schema.ts] *)

(** Takes a successful bind apart, as long as there is one. *)
Ltac bind_inv H :=
  repeat match type of H with
         | bind ?r ?k = Ok ?b =>
             let a := fresh "x" in
             let Ha := fresh "Hx" in
             apply bind_ok in H; destruct H as [a [Ha H]]
         end.

Section SuiReadFacts.
Context {rt : Runtime} {World : Type} {env : Sui.Env World}.

Lemma resolver_of_spec (fields v : JsVal) :
  Sui.resolver_of fields = Ok v ->
  let r := get fields "resolver" in
  (v = JNull <-> Sui.absent r \/ ~ Sui.has_inner_fields r) /\
  (v <> JNull ->
   v = JObj [("rules", get (get r "fields") "rules");
             ("config", get (get r "fields") "config")]).
Proof.
  unfold Sui.resolver_of, Sui.absent, Sui.has_inner_fields. intro H.
  apply bind_ok in H. destruct H as [r [Hr H]].
  apply prop_ok_get in Hr. subst r. simpl.
  destruct (js_truthy (get fields "resolver")) eqn:Htruthy.
  - rewrite (prop_truthy _ "fields" Htruthy) in H. simpl in H.
    destruct (js_truthy (get (get fields "resolver") "fields")) eqn:Hinner.
    + rewrite !(prop_truthy _ _ Hinner) in H. simpl in H.
      inversion H; subst v. split.
      * split; [discriminate |].
        intros [[Habs | Habs] | Hno].
        -- rewrite Habs in Htruthy. discriminate Htruthy.
        -- rewrite Habs in Htruthy. discriminate Htruthy.
        -- contradiction Hno. reflexivity.
      * reflexivity.
    + inversion H; subst v. split.
      * split; [| reflexivity]. intros _. right. discriminate.
      * intro Hne. contradiction Hne. reflexivity.
  - inversion H; subst v. split.
    + split; [| reflexivity]. intros _. right.
      destruct (get fields "resolver") as [| | b | z | str | l | props];
        simpl in *; discriminate.
    + intro Hne. contradiction Hne. reflexivity.
Qed.

(** What a successful [getSchema] went through. *)
Lemma getSchema_ok_inv (id : JsVal) (chain network : string) (w : World)
  (s : Sui.SuiSchema) :
  Sui.getSchema id chain network w = Ok s ->
  exists client response object type fields,
    Sui.getClient chain network = Ok client /\
    Sui.client_getObject client id w = Ok response /\
    Sui.data response = Present object /\
    Sui.content object = Present (Sui.MoveObject type fields) /\
    Sui.schema_of_object object fields = Ok s.
Proof.
  unfold Sui.getSchema. intro H. bind_inv H.
  exists x, x0.
  destruct (Sui.error x0); try discriminate H;
    (destruct (Sui.data x0) as [| | object]; try discriminate H;
     destruct (Sui.content object) as [| | [type fields | d]] eqn:Hc;
     try discriminate H;
     exists object, type, fields; repeat split; assumption).
Qed.

(** The fields of the entity, one by one. *)
Lemma schema_of_object_ok_inv (object : Sui.SuiObjectData) (fields : JsVal)
  (s : Sui.SuiSchema) :
  Sui.schema_of_object object fields = Ok s ->
  Sui.resolver_of fields = Ok (Sui.resolver s) /\
  new_Uint8Array (get fields "schema") = Ok (Sui.schema s) /\
  bs58_encode (get fields "tx_hash") = Ok (Sui.txHash s) /\
  Sui.schemaAddr s = Sui.objectId object.
Proof.
  unfold Sui.schema_of_object. intro H. bind_inv H.
  repeat match goal with
         | Hp : prop _ _ = Ok _ |- _ => apply prop_ok_get in Hp; subst
         end.
  inversion H; subst s; simpl. repeat split; assumption.
Qed.

(** C10. When [getSchema] returns an entity for a fetched object, the
    resolver of the entity is [null] exactly when the resolver field of the
    object is absent or has no inner fields, and otherwise it is the record
    of the [rules] and the [config] of the inner fields, as they are. *)
Theorem getSchema_resolver (id : JsVal) (chain network : string) (w : World)
  (s : Sui.SuiSchema) :
  Sui.getSchema id chain network w = Ok s ->
  exists client response object type fields,
    Sui.getClient chain network = Ok client /\
    Sui.client_getObject client id w = Ok response /\
    Sui.data response = Present object /\
    Sui.content object = Present (Sui.MoveObject type fields) /\
    let r := get fields "resolver" in
    (Sui.resolver s = JNull <-> Sui.absent r \/ ~ Sui.has_inner_fields r) /\
    (Sui.resolver s <> JNull ->
     Sui.resolver s = JObj [("rules", get (get r "fields") "rules");
                            ("config", get (get r "fields") "config")]).
Proof.
  intro H.
  destruct (getSchema_ok_inv _ _ _ _ _ H)
    as [client [response [object [type [fields [Hc [Hr [Hd [Hcont Hs]]]]]]]]].
  exists client, response, object, type, fields.
  repeat (split; [assumption |]).
  apply schema_of_object_ok_inv in Hs. destruct Hs as [Hres _].
  exact (resolver_of_spec _ _ Hres).
Qed.

End SuiReadFacts.

Lemma getSchema_resolver_witness :
  exists s,
    Sui.getSchema (JStr "53") "sui" "testnet" Toy.ledger = Ok s /\
    Sui.resolver s =
      JObj [("rules", JObj [("contents", JArr [])]); ("config", JStr "0xc0f1")].
Proof.
  destruct (Sui.getSchema (JStr "53") "sui" "testnet" Toy.ledger) as [s | e] eqn:H;
    [| vm_compute in H; discriminate H].
  exists s. split; [reflexivity |].
  destruct (getSchema_resolver _ _ _ _ _ H)
    as [client [response [object [type [fields [_ [Hr [Hd [Hcont [_ Hobj]]]]]]]]]].
  vm_compute in Hr. inversion Hr; subst response; clear Hr.
  simpl in Hd. inversion Hd; subst object; clear Hd.
  simpl in Hcont. inversion Hcont; subst type fields; clear Hcont.
  apply Hobj. intro Hnull.
  vm_compute in H. inversion H; subst s. discriminate Hnull.
Defined.

(** ** The transaction hash of a record *)

Lemma Uint8Array_from_json_of_bytes {rt : Runtime} (bs : list byte) :
  Uint8Array_from (map (fun b => JNum (Z_of_byte b)) bs) = bs.
Proof.
  unfold Uint8Array_from. rewrite map_map.
  induction bs as [| b rest IH]; simpl.
  - reflexivity.
  - f_equal; [apply byte_of_Z_of_byte | exact IH].
Qed.

Lemma bs58_encode_ok_inv {rt : Runtime} (v : JsVal) (text : string) :
  bs58_encode v = Ok text ->
  exists hash, v = JArr hash /\ text = bs58_encode_bytes (Uint8Array_from hash).
Proof.
  destruct v; simpl; intro H; try discriminate H.
  inversion H. eexists. split; reflexivity.
Qed.

Section AptosReadFacts.
Context {rt : Runtime} {World : Type} {env : Aptos.Env World}.

(** What a successful [getAptosSchema] went through. *)
Lemma getAptosSchema_ok_inv (network schemaAddr : string) (w : World)
  (s : Aptos.AptosSchema) :
  Aptos.getAptosSchema network schemaAddr w = Ok s ->
  exists packageId schemas record,
    Aptos.getPackageAddress "aptos" network = Ok packageId /\
    Aptos.client_view network (packageId ++ "::schema::schema_data")
      [JStr schemaAddr] w = Ok schemas /\
    first_element schemas = Ok record /\
    Aptos.txHash s = get record "tx_hash".
Proof.
  unfold Aptos.getAptosSchema. intro H. bind_inv H.
  destruct (negb (js_truthy x0)); [discriminate H |].
  unfold Aptos.schema_of_view in H. bind_inv H.
  exists x, x0, x1. repeat (split; [assumption |]).
  inversion H; subst s; simpl.
  apply prop_ok_get. assumption.
Qed.

End AptosReadFacts.

Section TransactionHash.
Context {rt : Runtime} {SuiWorld AptosWorld : Type}
  {sui : Sui.Env SuiWorld} {aptos : Aptos.Env AptosWorld}.

(** C7, as the code has it.  On Sui, the entity [getSchema] returns carries
    the base58 text of the bytes of the [tx_hash] field of the object (the
    field is an array; the bytes [H] of a rendered byte vector give the base58
    text of [H]).  On Aptos, the entity [getAptosSchema] returns carries the
    [tx_hash] of the view's answer as it is, with no encoding applied. *)
Theorem txHash_base58_on_Sui_verbatim_on_Aptos :
  (forall (id : JsVal) (chain network : string) (w : SuiWorld) (s : Sui.SuiSchema),
     Sui.getSchema id chain network w = Ok s ->
     exists client response object type fields hash,
       Sui.getClient chain network = Ok client /\
       Sui.client_getObject client id w = Ok response /\
       Sui.data response = Present object /\
       Sui.content object = Present (Sui.MoveObject type fields) /\
       get fields "tx_hash" = JArr hash /\
       Sui.txHash s = bs58_encode_bytes (Uint8Array_from hash) /\
       (forall H, get fields "tx_hash" = json_of_bytes H ->
                  Sui.txHash s = bs58_encode_bytes H)) /\
  (forall (network schemaAddr : string) (w : AptosWorld) (s : Aptos.AptosSchema),
     Aptos.getAptosSchema network schemaAddr w = Ok s ->
     exists packageId schemas record,
       Aptos.getPackageAddress "aptos" network = Ok packageId /\
       Aptos.client_view network (packageId ++ "::schema::schema_data")
         [JStr schemaAddr] w = Ok schemas /\
       first_element schemas = Ok record /\
       Aptos.txHash s = get record "tx_hash").
Proof.
  split.
  - intros id chain network w s H.
    destruct (getSchema_ok_inv _ _ _ _ _ H)
      as [client [response [object [type [fields [Hc [Hr [Hd [Hcont Hs]]]]]]]]].
    apply schema_of_object_ok_inv in Hs. destruct Hs as [_ [_ [Hhash _]]].
    apply bs58_encode_ok_inv in Hhash. destruct Hhash as [hash [Harr Htext]].
    exists client, response, object, type, fields, hash.
    repeat (split; [assumption |]).
    intros H' Hjson. rewrite Htext.
    rewrite Harr in Hjson. unfold json_of_bytes in Hjson.
    inversion Hjson. rewrite Uint8Array_from_json_of_bytes. reflexivity.
  - intros network schemaAddr w s H.
    exact (getAptosSchema_ok_inv _ _ _ _ H).
Qed.

End TransactionHash.

Lemma txHash_base58_on_Sui_verbatim_on_Aptos_witness :
  (exists s,
     Sui.getSchema (JStr "53") "sui" "testnet" Toy.ledger = Ok s /\
     Sui.txHash s = bs58_encode_bytes [x00; x00; x01]) /\
  (exists s,
     Aptos.getAptosSchema "testnet" "0x51" (Toy.aptos_ledger (JArr [Toy.schema_data]))
       = Ok s /\
     Aptos.txHash s = JStr "0x00").
Proof.
  destruct (@txHash_base58_on_Sui_verbatim_on_Aptos
              Toy.runtime Toy.SuiWorld Toy.AptosWorld Toy.sui_env Toy.aptos_env)
    as [Hsui Haptos].
  split.
  - destruct (Sui.getSchema (JStr "53") "sui" "testnet" Toy.ledger) as [s | e] eqn:H;
      [| vm_compute in H; discriminate H].
    exists s. split; [reflexivity |].
    destruct (Hsui _ _ _ _ _ H)
      as [client [response [object [type [fields [hash
           [_ [Hr [Hd [Hcont [_ [_ Hbytes]]]]]]]]]]]].
    vm_compute in Hr. inversion Hr; subst response; clear Hr.
    simpl in Hd. inversion Hd; subst object; clear Hd.
    simpl in Hcont. inversion Hcont; subst type fields; clear Hcont.
    apply Hbytes. reflexivity.
  - destruct (Aptos.getAptosSchema "testnet" "0x51"
                (Toy.aptos_ledger (JArr [Toy.schema_data]))) as [s | e] eqn:H;
      [| vm_compute in H; discriminate H].
    exists s. split; [reflexivity |].
    destruct (Haptos _ _ _ _ H) as [packageId [schemas [record [_ [Hv [Hf Htx]]]]]].
    vm_compute in Hv. inversion Hv; subst schemas; clear Hv.
    vm_compute in Hf. inversion Hf; subst record; clear Hf.
    exact Htx.
Defined.

(** C7 as stated fails on Aptos: the answer of the view holds the hash
    ["0x00"], the entity carries that very text, and no byte sequence has it
    as its base58 text. *)
Lemma getAptosSchema_txHash_counterexample :
  exists s,
    Aptos.getAptosSchema "testnet" "0x51" (Toy.aptos_ledger (JArr [Toy.schema_data]))
      = Ok s /\
    Aptos.txHash s = JStr "0x00" /\
    (forall source, JStr (bs58_encode_bytes source) <> Aptos.txHash s).
Proof.
  eexists. split; [vm_compute; reflexivity |].
  split; [reflexivity |].
  intros source H. simpl in H. inversion H as [Htext].
  exact (bs58_encode_bytes_not_hex source "x00" Htext).
Qed.

(** ** Listing the records *)

Lemma Forall2_map_l {A B C : Type} (f : A -> B) (R : B -> C -> Prop)
  (l : list A) (l' : list C) :
  Forall2 R (map f l) l' <-> Forall2 (fun a c => R (f a) c) l l'.
Proof.
  split.
  - revert l'. induction l as [| a rest IH]; simpl; intros l' H.
    + inversion H. constructor.
    + inversion H; subst. constructor; [assumption | apply IH; assumption].
  - induction 1; simpl; constructor; assumption.
Qed.

Section ListingFacts.
Context {rt : Runtime} {World : Type} {env : Sui.Env World}.

Lemma getSchemas_unfold (chain network : string) (w : World)
  (client : Sui.SuiClient) (tableId : string) (page : Sui.DynamicFieldPage) :
  Sui.getClient chain network = Ok client ->
  Sui.getSchemaRegistryTableId chain network w = Ok tableId ->
  Sui.client_getDynamicFields client tableId None w = Ok page ->
  Sui.getSchemas chain network w =
  Promise_all (map (Sui.fetch_entry client chain network w) (Sui.page_data page)).
Proof.
  intros Hc Ht Hp. unfold Sui.getSchemas.
  rewrite Hc. simpl. rewrite Ht. simpl. rewrite Hp. reflexivity.
Qed.

(** C1, as the code has it.  [getSchemas] asks for the listing once, with no
    cursor: it returns one decoded entity for every entry of the first page,
    in the order of the page, exactly when every entry of that page is fetched
    and decoded; the continuation cursor is not followed, so the result is the
    whole listing when the first page is the last. *)
Theorem getSchemas_first_page (chain network : string) (w : World)
  (client : Sui.SuiClient) (tableId : string) (page : Sui.DynamicFieldPage) :
  Sui.getClient chain network = Ok client ->
  Sui.getSchemaRegistryTableId chain network w = Ok tableId ->
  Sui.client_getDynamicFields client tableId None w = Ok page ->
  (forall schemas,
     Sui.getSchemas chain network w = Ok schemas <->
     Forall2 (fun item s => Sui.fetch_entry client chain network w item = Ok s)
       (Sui.page_data page) schemas) /\
  (forall schemas,
     Sui.getSchemas chain network w = Ok schemas ->
     List.length schemas = List.length (Sui.page_data page)) /\
  (Sui.hasNextPage page = false ->
   forall fuel,
     Sui.spec_listAllEntries (S fuel) client tableId None w = Ok (Sui.page_data page)).
Proof.
  intros Hc Ht Hp.
  rewrite (getSchemas_unfold _ _ _ _ _ _ Hc Ht Hp).
  split; [| split].
  - intro schemas. rewrite Promise_all_Forall2. apply Forall2_map_l.
  - intros schemas H. apply Promise_all_ok_length in H.
    rewrite H. apply length_map.
  - intros Hlast fuel. simpl. rewrite Hp. simpl. rewrite Hlast. reflexivity.
Qed.

(** C2. When the listing is obtained and the fetch of at least one of its
    entries fails, [getSchemas] rejects: it returns no list at all. *)
Theorem getSchemas_fail_fast (chain network : string) (w : World)
  (client : Sui.SuiClient) (tableId : string) (page : Sui.DynamicFieldPage)
  (item : Sui.DynamicFieldInfo) :
  Sui.getClient chain network = Ok client ->
  Sui.getSchemaRegistryTableId chain network w = Ok tableId ->
  Sui.client_getDynamicFields client tableId None w = Ok page ->
  In item (Sui.page_data page) ->
  rejects (Sui.fetch_entry client chain network w item) ->
  rejects (Sui.getSchemas chain network w) /\
  (forall schemas, Sui.getSchemas chain network w <> Ok schemas).
Proof.
  intros Hc Ht Hp Hin Hrej.
  rewrite (getSchemas_unfold _ _ _ _ _ _ Hc Ht Hp).
  assert (Hall : rejects (Promise_all
                   (map (Sui.fetch_entry client chain network w) (Sui.page_data page)))).
  { apply (Promise_all_rejects _ (Sui.fetch_entry client chain network w item)).
    - apply in_map. exact Hin.
    - exact Hrej. }
  split; [exact Hall |].
  intros schemas Hok. destruct Hall as [e He]. rewrite He in Hok. discriminate Hok.
Qed.

End ListingFacts.

Lemma getSchemas_first_page_witness :
  exists s,
    Sui.getSchemas "sui" "testnet" Toy.ledger = Ok [s] /\
    Sui.fetch_entry Toy.client "sui" "testnet" Toy.ledger (Toy.entry_info "51") = Ok s.
Proof.
  destruct (@getSchemas_first_page Toy.runtime _ Toy.sui_env "sui" "testnet" Toy.ledger
              Toy.client "0x7ab1e" (Toy.find_page "0x7ab1e" None (Toy.listings Toy.ledger))
              eq_refl eq_refl eq_refl) as [Hiff _].
  destruct (Sui.fetch_entry Toy.client "sui" "testnet" Toy.ledger (Toy.entry_info "51"))
    as [s | e] eqn:Hs; [| vm_compute in Hs; discriminate Hs].
  exists s. split; [| reflexivity].
  apply Hiff. simpl. constructor; [exact Hs | constructor].
Defined.

(** C1 as stated fails: the listing of the table has two pages with one entry
    each, both entries are fetched and decoded without error, and
    [getSchemas] returns the entity of the first page only. *)
Lemma getSchemas_pagination_counterexample :
  exists entries schemas,
    Sui.spec_listAllEntries 2 Toy.client "0x7ab1e" None Toy.ledger = Ok entries /\
    map Sui.field_objectId entries = ["0xf51"; "0xf52"] /\
    map (fun item => is_ok (Sui.fetch_entry Toy.client "sui" "testnet" Toy.ledger item)) entries
      = [true; true] /\
    Sui.getSchemas "sui" "testnet" Toy.ledger = Ok schemas /\
    map Sui.schemaAddr schemas = ["51"].
Proof.
  eexists. eexists.
  split; [vm_compute; reflexivity |].
  split; [reflexivity |].
  split; [vm_compute; reflexivity |].
  split; [vm_compute; reflexivity |].
  reflexivity.
Qed.

Lemma getSchemas_fail_fast_witness :
  rejects (Sui.getSchemas "sui" "testnet" Toy.broken_ledger).
Proof.
  refine (proj1 (@getSchemas_fail_fast Toy.runtime _ Toy.sui_env "sui" "testnet"
                   Toy.broken_ledger Toy.client "0x7ab1e"
                   (Toy.find_page "0x7ab1e" None (Toy.listings Toy.broken_ledger))
                   (Toy.entry_info "54") eq_refl eq_refl eq_refl _ _)).
  - simpl. right. left. reflexivity.
  - eexists. vm_compute. reflexivity.
Defined.

(** ** Resolving the current table *)

Section RegistryFacts.
Context {rt : Runtime} {World : Type} {env : Sui.Env World}.

Lemma getSchemaRegistry_fetched (chain network : string) (w : World)
  (client : Sui.SuiClient) (registryId : string)
  (response : Sui.SuiObjectResponse) (object : Sui.SuiObjectData)
  (type : string) (fields inner_id version : JsVal) :
  Sui.getClient chain network = Ok client ->
  Sui.getSchemaRegistryId chain network = Ok registryId ->
  Sui.client_getObject client (JStr registryId) w = Ok response ->
  Sui.error response = Undefined \/ Sui.error response = Null ->
  Sui.data response = Present object ->
  Sui.content object = Present (Sui.MoveObject type fields) ->
  path fields ["inner"; "fields"; "id"; "id"] = Ok inner_id ->
  path fields ["inner"; "fields"; "version"] = Ok version ->
  Sui.getSchemaRegistry chain network w =
  Ok {| Sui.registry_id := Sui.objectId object;
        Sui.registry_version :=
          {| Sui.version_id := inner_id; Sui.version_version := version |} |}.
Proof.
  intros Hc Hid Hr He Hd Hcont Hinner Hversion.
  unfold Sui.getSchemaRegistry. rewrite Hc. cbn [bind]. rewrite Hid. cbn [bind].
  rewrite Hr. cbn [bind].
  destruct He as [He | He]; rewrite He, Hd, Hcont; cbn [bind Sui.content_fields];
    rewrite Hinner; cbn [bind]; rewrite Hversion; reflexivity.
Qed.

Lemma getSchemaRegistryTable_unfold (chain network : string) (w : World)
  (client : Sui.SuiClient) (registry : Sui.SchemaRegistry) :
  Sui.getClient chain network = Ok client ->
  Sui.getSchemaRegistry chain network w = Ok registry ->
  Sui.getSchemaRegistryTable chain network w =
  bind (Sui.client_getDynamicFieldObject client
          (Sui.version_id (Sui.registry_version registry))
          {| Sui.name_type := "u64";
             Sui.name_value := Sui.version_version (Sui.registry_version registry) |} w)
       Sui.table_id_of.
Proof.
  intros Hc Hreg. unfold Sui.getSchemaRegistryTable.
  rewrite Hc. simpl. rewrite Hreg. reflexivity.
Qed.

(** C6. Resolving the current table takes two hops.  The registry object is
    read first, and its inner id and version pointer are taken from
    [inner.fields]; the dynamic field of that inner id named by the version,
    as a [u64], is read next; the table id returned is the one found in the
    object stored under that name. *)
Theorem getSchemaRegistryTable_two_hops (chain network : string) (w : World)
  (client : Sui.SuiClient) (registryId : string)
  (response : Sui.SuiObjectResponse) (object : Sui.SuiObjectData)
  (type : string) (fields inner_id version : JsVal) :
  Sui.getClient chain network = Ok client ->
  Sui.getSchemaRegistryId chain network = Ok registryId ->
  Sui.client_getObject client (JStr registryId) w = Ok response ->
  Sui.error response = Undefined \/ Sui.error response = Null ->
  Sui.data response = Present object ->
  Sui.content object = Present (Sui.MoveObject type fields) ->
  path fields ["inner"; "fields"; "id"; "id"] = Ok inner_id ->
  path fields ["inner"; "fields"; "version"] = Ok version ->
  Sui.getSchemaRegistry chain network w =
    Ok {| Sui.registry_id := Sui.objectId object;
          Sui.registry_version :=
            {| Sui.version_id := inner_id; Sui.version_version := version |} |} /\
  Sui.getSchemaRegistryTable chain network w =
    bind (Sui.client_getDynamicFieldObject client inner_id
            {| Sui.name_type := "u64"; Sui.name_value := version |} w)
         Sui.table_id_of /\
  (forall stored holder holder_type holder_fields table,
     Sui.client_getDynamicFieldObject client inner_id
       {| Sui.name_type := "u64"; Sui.name_value := version |} w = Ok stored ->
     Sui.data stored = Present holder ->
     Sui.content holder = Present (Sui.MoveObject holder_type holder_fields) ->
     path holder_fields ["value"; "fields"; "schema_records"; "fields"; "id"; "id"]
       = Ok table ->
     Sui.getSchemaRegistryTable chain network w = Ok table).
Proof.
  intros Hc Hid Hr He Hd Hcont Hinner Hversion.
  pose proof (getSchemaRegistry_fetched _ _ _ _ _ _ _ _ _ _ _
                Hc Hid Hr He Hd Hcont Hinner Hversion) as Hreg.
  pose proof (getSchemaRegistryTable_unfold _ _ _ _ _ Hc Hreg) as Htable.
  simpl in Htable.
  split; [exact Hreg |]. split; [exact Htable |].
  intros stored holder holder_type holder_fields table Hs Hh Hhc Hpath.
  rewrite Htable, Hs. simpl. unfold Sui.table_id_of.
  rewrite Hh. simpl. rewrite Hhc. simpl. exact Hpath.
Qed.

(** C3 does not hold on the code.  When the registry is read and no dynamic
    field is stored under its version (the answer carries no data), resolving
    the current table fails with the [TypeError] of reading [fields] of
    [undefined], the failure of any answer without content: line 326 reads
    the content without looking at the error of the answer, which [getSchema]
    and [getSchemaRegistry] check first. *)
Theorem getSchemaRegistryTable_missing_field (chain network : string) (w : World)
  (client : Sui.SuiClient) (registry : Sui.SchemaRegistry)
  (res : Sui.SuiObjectResponse) :
  Sui.getClient chain network = Ok client ->
  Sui.getSchemaRegistry chain network w = Ok registry ->
  Sui.client_getDynamicFieldObject client
    (Sui.version_id (Sui.registry_version registry))
    (Sui.version_key (Sui.registry_version registry)) w = Ok res ->
  Sui.data res = Undefined \/ Sui.data res = Null ->
  Sui.getSchemaRegistryTable chain network w = Throw (cannot_read "undefined" "fields") /\
  Sui.table_id_of res = Sui.content_fields Undefined.
Proof.
  intros Hc Hreg Hres Hdata.
  rewrite (getSchemaRegistryTable_unfold _ _ _ _ _ Hc Hreg).
  unfold Sui.version_key in Hres. rewrite Hres. simpl.
  unfold Sui.table_id_of.
  destruct Hdata as [Hd | Hd]; rewrite Hd; simpl; split; reflexivity.
Qed.

End RegistryFacts.

Lemma getSchemaRegistryTable_two_hops_witness :
  Sui.getSchemaRegistry "sui" "testnet" Toy.ledger =
    Ok {| Sui.registry_id := Toy.toy_registry;
          Sui.registry_version :=
            {| Sui.version_id := JStr "0x1ee7"; Sui.version_version := JStr "2" |} |} /\
  Sui.getSchemaRegistryTable "sui" "testnet" Toy.ledger = Ok (JStr "0x7ab1e").
Proof.
  destruct (@getSchemaRegistryTable_two_hops _ Toy.sui_env
              "sui" "testnet" Toy.ledger Toy.client Toy.toy_registry
              (Toy.found Toy.toy_registry "schema_registry::SchemaRegistry"
                 (Toy.registry_fields "2"))
              _ _ _ (JStr "0x1ee7") (JStr "2")
              eq_refl eq_refl eq_refl (or_introl eq_refl) eq_refl eq_refl
              eq_refl eq_refl) as [Hreg [_ Htable]].
  split; [exact Hreg |].
  apply (Htable (Toy.found "0xd2" "0x2::dynamic_field::Field"
                   (Toy.table_holder "0x7ab1e")) _ _ _ _
           eq_refl eq_refl eq_refl eq_refl).
Defined.

Lemma getSchemaRegistryTable_missing_field_witness :
  Sui.getSchemaRegistryTable "sui" "testnet" Toy.stale_ledger =
  Throw (cannot_read "undefined" "fields").
Proof.
  refine (proj1 (@getSchemaRegistryTable_missing_field _ Toy.sui_env
                   "sui" "testnet" Toy.stale_ledger Toy.client
                   {| Sui.registry_id := Toy.toy_registry;
                      Sui.registry_version :=
                        {| Sui.version_id := JStr "0x1ee7";
                           Sui.version_version := JStr "3" |} |}
                   (Toy.not_found "dynamicFieldNotFound")
                   eq_refl eq_refl eq_refl (or_introl eq_refl))).
Defined.

(** C3 on a ledger: the registry points at version 3, the node answers that
    no dynamic field is stored under it, and resolving the table fails with a
    [TypeError], the error of a decoding that went wrong, and not with an
    error of a class of its own. *)
Lemma getSchemaRegistryTable_stale_counterexample :
  exists registry e,
    Sui.getSchemaRegistry "sui" "testnet" Toy.stale_ledger = Ok registry /\
    Sui.client_getDynamicFieldObject Toy.client
      (Sui.version_id (Sui.registry_version registry))
      (Sui.version_key (Sui.registry_version registry)) Toy.stale_ledger
      = Ok (Toy.not_found "dynamicFieldNotFound") /\
    Sui.getSchemaRegistryTable "sui" "testnet" Toy.stale_ledger = Throw e /\
    err_class e = "TypeError" /\
    err_class e <> "StaleVersionError" /\
    Throw e = Sui.table_id_of
                {| Sui.data := Present {| Sui.objectId := "0xd3";
                                          Sui.content := Undefined |};
                   Sui.error := Undefined |}.
Proof.
  eexists. eexists.
  split; [vm_compute; reflexivity |].
  split; [reflexivity |].
  split; [vm_compute; reflexivity |].
  split; [reflexivity |].
  split; [discriminate | reflexivity].
Qed.

(** ** The not-found guards of [src/aptos/aas.ts] *)

Section GuardFacts.
Context {rt : Runtime} {World : Type} {env : Aptos.Env World}.

(** C9. When the view call yields an array, the guard of [getAptosSchema]
    and the guard of [getAptosAttestation] do not fire, the empty array
    included: the operation goes on with the code after the guard, and on the
    empty array it fails there, reading a property of the missing first
    element, and not with the error of the guard. *)
Theorem not_found_guard_never_fires_on_arrays
  (network addr packageId : string) (w : World) (l : list JsVal) :
  Aptos.getPackageAddress "aptos" network = Ok packageId ->
  (Aptos.client_view network (packageId ++ "::schema::schema_data") [JStr addr] w
     = Ok (JArr l) ->
   negb (js_truthy (JArr l)) = false /\
   Aptos.getAptosSchema network addr w = Aptos.schema_of_view addr (JArr l) /\
   (l = [] ->
    Aptos.getAptosSchema network addr w = Throw (cannot_read "undefined" "name"))) /\
  (Aptos.client_view network (packageId ++ "::attestation::attestation_data")
     [JStr addr] w = Ok (JArr l) ->
   negb (js_truthy (JArr l)) = false /\
   Aptos.getAptosAttestation network addr w = Aptos.attestation_of_view addr (JArr l) /\
   (l = [] ->
    Aptos.getAptosAttestation network addr w =
      Throw (cannot_read "undefined" "attestor"))).
Proof.
  intro Hp. split; intro Hv.
  - assert (Hgo : Aptos.getAptosSchema network addr w =
                  Aptos.schema_of_view addr (JArr l)).
    { unfold Aptos.getAptosSchema. rewrite Hp. cbn [bind]. rewrite Hv. reflexivity. }
    split; [reflexivity |]. split; [exact Hgo |].
    intro Hl. rewrite Hgo, Hl. reflexivity.
  - assert (Hgo : Aptos.getAptosAttestation network addr w =
                  Aptos.attestation_of_view addr (JArr l)).
    { unfold Aptos.getAptosAttestation. rewrite Hp. cbn [bind]. rewrite Hv.
      reflexivity. }
    split; [reflexivity |]. split; [exact Hgo |].
    intro Hl. rewrite Hgo, Hl. reflexivity.
Qed.

(** After the guard, an array answer can only fail on its first element (a
    property read of [undefined] or [null]) or in the hex parser: none of the
    failures is the one of the guard. *)
Lemma schema_of_view_rejections (addr : string) (l : list JsVal) (e : JsError) :
  Aptos.schema_of_view addr (JArr l) = Throw e ->
  e = cannot_read "undefined" "name" \/ e = cannot_read "null" "name" \/
  exists v, Hex_fromHexString v = Throw e.
Proof.
  unfold Aptos.schema_of_view. cbn [first_element bind].
  destruct (nth 0 l JUndefined) as [| | b | z | str | l' | props] eqn:Hrecord;
    cbn [prop bind]; intro H;
    try (inversion H; subst e; auto; fail);
    match type of H with
    | context [Hex_fromHexString ?v] =>
        destruct (Hex_fromHexString v) as [bs | e'] eqn:Hhex;
        cbn [bind] in H; [discriminate H |];
        inversion H; subst e'; right; right; exists v; exact Hhex
    end.
Qed.

(** The guard fires on the answers that are not truthy, [null] for one. *)
Lemma not_found_guard_fires_on_null (network addr packageId : string) (w : World) :
  Aptos.getPackageAddress "aptos" network = Ok packageId ->
  Aptos.client_view network (packageId ++ "::schema::schema_data") [JStr addr] w
    = Ok JNull ->
  Aptos.getAptosSchema network addr w = Throw (Error "Schema not found").
Proof.
  intros Hp Hv. unfold Aptos.getAptosSchema.
  rewrite Hp. cbn [bind]. rewrite Hv. reflexivity.
Qed.

End GuardFacts.

Lemma not_found_guard_never_fires_on_arrays_witness :
  Aptos.getAptosSchema "testnet" "0x51" (Toy.aptos_ledger (JArr []))
    = Throw (cannot_read "undefined" "name") /\
  Aptos.getAptosAttestation "testnet" "0x51" (Toy.aptos_ledger (JArr []))
    = Throw (cannot_read "undefined" "attestor").
Proof.
  destruct (@not_found_guard_never_fires_on_arrays Toy.runtime _ Toy.aptos_env
              "testnet" "0x51" Toy.toy_package (Toy.aptos_ledger (JArr [])) []
              eq_refl) as [Hschema Hattestation].
  destruct (Hschema eq_refl) as [_ [_ Hs]].
  destruct (Hattestation eq_refl) as [_ [_ Ha]].
  split; [exact (Hs eq_refl) | exact (Ha eq_refl)].
Defined.

(** ** The write path *)

Section WriteFacts.
Context {World : Type} {env : Sui.Env World}.

(** [Schema.startAttest] makes one SDK call, the submission, and returns
    what that call returned in the world that call left; it does not wait for
    the transaction. *)
Theorem Schema_startAttest_returns_without_waiting
  (self : Sui.Schema) (schemaId : string) (w : World) :
  let tx := Sui.startAttest_transaction self schemaId in
  let submitted :=
    Sui.client_signAndExecuteTransaction (Sui.client self) (Sui.signer self) tx w in
  let run := Sui.Schema_startAttest self schemaId (start_session w) in
  calls (snd run) = [Sui.SignAndExecuteTransaction (Sui.signer self) tx] /\
  fst run = fst submitted /\
  world (snd run) = snd submitted.
Proof.
  cbv zeta. unfold Sui.Schema_startAttest, Sui.signAndExecuteTransaction, sdk_call.
  simpl.
  destruct (Sui.client_signAndExecuteTransaction (Sui.client self) (Sui.signer self)
              (Sui.startAttest_transaction self schemaId) w) as [r w'].
  simpl. repeat split.
Qed.

(** [Schema.new], its sibling, submits and then waits for the digest of the
    submission, and returns the receipt of the wait. *)
Lemma Schema_new_waits (self : Sui.Schema) (schema : list byte)
  (name description url : string) (revokable : bool) (w : World)
  (receipt : Sui.SuiTransactionBlockResponse) (s' : Session World Sui.SdkCall) :
  Sui.Schema_new self schema name description url revokable (start_session w)
    = (Ok receipt, s') ->
  exists schemaRegistryId result w1,
    Sui.getSchemaRegistryId (Sui.chain self) (Sui.network self) = Ok schemaRegistryId /\
    let tx := Sui.new_transaction self schemaRegistryId schema name description url
                revokable in
    Sui.client_signAndExecuteTransaction (Sui.client self) (Sui.signer self) tx w
      = (Ok result, w1) /\
    Sui.client_waitForTransaction (Sui.client self) (Sui.digest result) true w1
      = (Ok receipt, world s') /\
    calls s' = [ Sui.SignAndExecuteTransaction (Sui.signer self) tx;
                 Sui.WaitForTransaction (Sui.digest result) true ].
Proof.
  unfold Sui.Schema_new, async_bind, async_lift, Sui.signAndExecuteTransaction,
    Sui.waitForTransaction, sdk_call. simpl.
  destruct (Sui.getSchemaRegistryId (Sui.chain self) (Sui.network self))
    as [schemaRegistryId | e]; [| discriminate].
  destruct (Sui.client_signAndExecuteTransaction (Sui.client self) (Sui.signer self)
              (Sui.new_transaction self schemaRegistryId schema name description url
                 revokable) w) as [[result | e] w1] eqn:Hsubmit; [| discriminate].
  simpl.
  destruct (Sui.client_waitForTransaction (Sui.client self) (Sui.digest result) true w1)
    as [r w2] eqn:Hwait.
  intro H. inversion H; subst r s'. simpl.
  exists schemaRegistryId, result, w1. cbv zeta.
  split; [reflexivity |]. split; [exact Hsubmit |]. split; [exact Hwait | reflexivity].
Qed.

End WriteFacts.

(** On the ledger of [Toy]: [startAttest] returns the bare answer of the
    submission, with one SDK call made. *)
Example Schema_startAttest_on_ledger :
  let self := {| Sui.client := Toy.client;
                 Sui.signer := {| Sui.toSuiAddress := Toy.alice |};
                 Sui.packageId := Toy.toy_package;
                 Sui.network := "testnet";
                 Sui.chain := "sui" |} in
  let run := Sui.Schema_startAttest self "51" (start_session Toy.ledger) in
  fst run = Ok {| Sui.digest := "tx0"; Sui.effects := None |} /\
  List.length (calls (snd run)) = 1.
Proof. vm_compute. split; reflexivity. Qed.

(** ** Writing a schema and reading it back *)

Section RoundTrip.
Context {rt : Runtime} {World : Type} {env : Sui.Env World}.

Lemma resolver_of_object (props : list (string * JsVal)) :
  exists v, Sui.resolver_of (JObj props) = Ok v.
Proof.
  unfold Sui.resolver_of. rewrite prop_object. cbn [bind].
  destruct (js_truthy (get (JObj props) "resolver")) eqn:Hr; [| eexists; reflexivity].
  rewrite (prop_truthy _ "fields" Hr). cbn [bind].
  destruct (js_truthy (get (get (JObj props) "resolver") "fields")) eqn:Hf;
    [| eexists; reflexivity].
  rewrite !(prop_truthy _ _ Hf). cbn [bind]. eexists. reflexivity.
Qed.

(** Decoding a record gives back the bytes its [schema] field renders. *)
Lemma schema_of_object_bytes (object : Sui.SuiObjectData)
  (props : list (string * JsVal)) (B : list byte) (hash : list JsVal) :
  lookup "schema" props = json_of_bytes B ->
  lookup "tx_hash" props = JArr hash ->
  exists s, Sui.schema_of_object object (JObj props) = Ok s /\ Sui.schema s = B.
Proof.
  intros Hschema Hhash. unfold Sui.schema_of_object.
  destruct (resolver_of_object props) as [v Hv]. rewrite Hv. cbn [bind].
  rewrite !prop_object. cbn [bind get].
  rewrite Hschema, new_Uint8Array_json_of_bytes. cbn [bind].
  rewrite Hhash. cbn [bind bs58_encode].
  eexists. split; reflexivity.
Qed.

Lemma Schema_constructor_ok_inv (chain network : string)
  (signer : Sui.Ed25519Keypair) (self : Sui.Schema) :
  Sui.Schema_constructor chain network signer = Ok self ->
  Sui.getClient chain network = Ok (Sui.client self) /\
  Sui.getPackageId chain network = Ok (Sui.packageId self) /\
  Sui.chain self = chain /\ Sui.network self = network /\ Sui.signer self = signer.
Proof.
  unfold Sui.Schema_constructor. intro H. bind_inv H.
  inversion H; subst self; simpl. repeat split; assumption.
Qed.

(** C8. On a chain that keeps the contract of [schema::new], a schema written
    by [Schema.new] with the payload bytes [B] and read back by [getSchema],
    through the same [Schema] object, has a [schema] field equal to [B]: the
    receipt names a created object, and reading that object in the world the
    write left returns an entity whose bytes are [B]. *)
Theorem Schema_new_getSchema_roundtrip (chain network : string)
  (signer : Sui.Ed25519Keypair) (self : Sui.Schema) (B : list byte)
  (name description url : string) (revokable : bool) (w : World)
  (receipt : Sui.SuiTransactionBlockResponse) (s' : Session World Sui.SdkCall) :
  Sui.chain_registers_schemas (Sui.packageId self) ->
  Sui.Schema_constructor chain network signer = Ok self ->
  Sui.Schema_new self B name description url revokable (start_session w)
    = (Ok receipt, s') ->
  exists eff id entity,
    Sui.effects receipt = Some eff /\ In id (Sui.created eff) /\
    Sui.Schema_getSchema self id (world s') = Ok entity /\
    Sui.schema entity = B.
Proof.
  intros Hchain Hself Hnew.
  apply Schema_constructor_ok_inv in Hself.
  destruct Hself as [Hclient [_ [Hc [Hn _]]]].
  apply Schema_new_waits in Hnew.
  destruct Hnew as [schemaRegistryId [result [w1 [_ [Hsubmit [Hwait _]]]]]].
  unfold Sui.new_transaction in Hsubmit.
  destruct (Hchain _ _ _ _ _ _ _ _ _ _ _ _ _ Hsubmit Hwait)
    as [eff [id [Heff [Hin Hholds]]]].
  destruct Hholds
    as [response [object [type [props [hash [Hr [He [Hd [Hcont [Hs Hh]]]]]]]]]].
  destruct (schema_of_object_bytes object props B hash Hs Hh) as [entity [Hok HB]].
  exists eff, id, entity. repeat (split; [assumption |]).
  split; [| exact HB].
  unfold Sui.Schema_getSchema, Sui.getSchema. rewrite Hc, Hn, Hclient. cbn [bind].
  rewrite Hr. cbn [bind].
  destruct He as [He | He]; rewrite He, Hd, Hcont; exact Hok.
Qed.

End RoundTrip.

(** The ledger of [Toy] keeps the contract. *)
Lemma toy_registers_schemas : Sui.chain_registers_schemas Toy.toy_package.
Proof.
  intros client signer registryId B name description url revokable w w1 w2
    result receipt Hsubmit Hwait.
  simpl in Hsubmit. unfold Toy.signAndExecuteTransaction, Toy.execute in Hsubmit.
  change (String.eqb (Toy.toy_package ++ "::schema::new")
            (Toy.toy_package ++ "::schema::new")) with true in Hsubmit.
  cbv iota in Hsubmit. inversion Hsubmit; subst result w1; clear Hsubmit.
  simpl in Hwait. unfold Toy.waitForTransaction in Hwait. simpl in Hwait.
  rewrite String.eqb_refl in Hwait. inversion Hwait; subst receipt w2; clear Hwait.
  eexists. eexists. split; [reflexivity |]. split; [left; reflexivity |].
  unfold Sui.holds_schema_bytes. simpl. rewrite String.eqb_refl.
  do 5 eexists. split; [reflexivity |].
  split; [left; reflexivity |]. split; [reflexivity |]. split; [reflexivity |].
  split; reflexivity.
Qed.

Lemma Schema_new_getSchema_roundtrip_witness :
  exists receipt s' id entity,
    Sui.Schema_new (Toy.schema_api Toy.alice) [x01; x02; x03] "person" "" "" true
      (start_session Toy.ledger) = (Ok receipt, s') /\
    Sui.Schema_getSchema (Toy.schema_api Toy.alice) id (world s') = Ok entity /\
    Sui.schema entity = [x01; x02; x03].
Proof.
  destruct (Sui.Schema_new (Toy.schema_api Toy.alice) [x01; x02; x03] "person" "" ""
              true (start_session Toy.ledger)) as [[receipt | e] s'] eqn:Hnew;
    [| vm_compute in Hnew; discriminate Hnew].
  destruct (@Schema_new_getSchema_roundtrip Toy.runtime _ Toy.sui_env
              "sui" "testnet" {| Sui.toSuiAddress := Toy.alice |}
              (Toy.schema_api Toy.alice) [x01; x02; x03] "person" "" "" true
              Toy.ledger receipt s' toy_registers_schemas eq_refl Hnew)
    as [eff [id [entity [_ [_ [Hread Hbytes]]]]]].
  exists receipt, s', id, entity. split; [reflexivity |]. split; assumption.
Defined.

(** ** The write path of [src/aptos/aas.ts] *)

Section AptosWriteFacts.
Context {World : Type} {env : Aptos.Env World}.

(** [Aas.createSchema] builds, submits and then waits for the hash of the
    submission, and returns the receipt of the wait. *)
Lemma Aas_createSchema_waits (self : Aptos.Aas) (schema : list byte)
  (name description url : string) (revokable : bool) (resolver : option string)
  (w : World) (receipt : Aptos.CommittedTransactionResponse)
  (s' : Session World Aptos.SdkCall) :
  Aptos.createSchema self schema name description url revokable resolver
    (start_session w) = (Ok receipt, s') ->
  exists transaction tx w1,
    let data := Aptos.createSchema_data self schema name description url revokable
                  resolver in
    Aptos.client_build_simple (Aptos.network self)
      (Aptos.accountAddress (Aptos.account self)) data w = Ok transaction /\
    Aptos.client_signAndSubmitTransaction (Aptos.network self) (Aptos.account self)
      transaction w = (Ok tx, w1) /\
    Aptos.client_waitForTransaction (Aptos.network self) (Aptos.hash tx) w1
      = (Ok receipt, world s') /\
    calls s' = [ Aptos.BuildSimple (Aptos.accountAddress (Aptos.account self)) data;
                 Aptos.SignAndSubmitTransaction (Aptos.account self);
                 Aptos.WaitForTransaction (Aptos.hash tx) ].
Proof.
  unfold Aptos.createSchema, async_bind, Aptos.build_simple,
    Aptos.signAndSubmitTransaction, Aptos.waitForTransaction, sdk_call. simpl.
  destruct (Aptos.client_build_simple (Aptos.network self)
              (Aptos.accountAddress (Aptos.account self))
              (Aptos.createSchema_data self schema name description url revokable
                 resolver) w) as [transaction | e] eqn:Hbuild; [| discriminate].
  simpl.
  destruct (Aptos.client_signAndSubmitTransaction (Aptos.network self)
              (Aptos.account self) transaction w) as [[tx | e] w1] eqn:Hsubmit;
    [| discriminate].
  simpl.
  destruct (Aptos.client_waitForTransaction (Aptos.network self) (Aptos.hash tx) w1)
    as [r w2] eqn:Hwait.
  intro H. inversion H; subst r s'. simpl.
  exists transaction, tx, w1. cbv zeta.
  repeat split; first [reflexivity | assumption].
Qed.

End AptosWriteFacts.

(* ================================================================== *)
(** * Further properties *)
(* ================================================================== *)

(** ** The protocol of the write operations of [Schema] *)

Lemma prefix_append (p m r : string) :
  String.prefix m (m ++ r) = true ->
  String.prefix (p ++ m) (p ++ m ++ r) = true.
Proof.
  intro H. induction p as [| c p IH]; simpl.
  - exact H.
  - destruct (Ascii.ascii_dec c c) as [_ | Hne]; [exact IH | contradiction Hne; reflexivity].
Qed.

Lemma schema_target_within (package function : string) :
  String.prefix (package ++ "::schema::") (package ++ "::schema::" ++ function) = true.
Proof.
  apply prefix_append.
  generalize "::schema::". intro m. induction m as [| c m IH]; simpl.
  - destruct function; reflexivity.
  - destruct (Ascii.ascii_dec c c) as [_ | Hne]; [exact IH | contradiction Hne; reflexivity].
Qed.

Section ProtocolFacts.
Context {World : Type} {env : Sui.Env World}.

Lemma submitting_run (self : Sui.Schema) (tx : Sui.Transaction) (w : World) :
  Sui.signAndExecuteTransaction self tx (start_session w) = Sui.submit_only self tx w.
Proof.
  unfold Sui.signAndExecuteTransaction, Sui.submit_only, sdk_call. simpl.
  destruct (Sui.client_signAndExecuteTransaction (Sui.client self) (Sui.signer self)
              tx w) as [answer w1]. reflexivity.
Qed.

Lemma waiting_run (self : Sui.Schema) (tx : Sui.Transaction) (w : World) :
  async_bind (Sui.signAndExecuteTransaction self tx)
    (fun result => Sui.waitForTransaction self (Sui.digest result) true)
    (start_session w)
  = Sui.submit_then_wait self tx w.
Proof.
  unfold async_bind, Sui.signAndExecuteTransaction, Sui.waitForTransaction,
    Sui.submit_then_wait, sdk_call. simpl.
  destruct (Sui.client_signAndExecuteTransaction (Sui.client self) (Sui.signer self)
              tx w) as [[result | e] w1]; simpl; [| reflexivity].
  destruct (Sui.client_waitForTransaction (Sui.client self) (Sui.digest result) true w1)
    as [receipt w2]. reflexivity.
Qed.

(** X1. [Schema.new] and [Schema.newWithResolver] resolve the registry id
    first: when that fails the operation rejects with the same error, makes no
    SDK call and leaves the world as it was; otherwise the run is the one of
    the protocol, a submission that is waited for when it is accepted and not
    when it is rejected, with the receipt of the wait returned. *)
Theorem Schema_new_follows_the_protocol (self : Sui.Schema) (schema : list byte)
  (name description url : string) (revokable : bool) (w : World) :
  match Sui.getSchemaRegistryId (Sui.chain self) (Sui.network self) with
  | Throw e =>
      Sui.Schema_new self schema name description url revokable (start_session w)
        = (Throw e, start_session w) /\
      Sui.Schema_newWithResolver self schema name description url revokable
        (start_session w) = (Throw e, start_session w)
  | Ok schemaRegistryId =>
      Sui.Schema_new self schema name description url revokable (start_session w)
        = Sui.submit_then_wait self
            (Sui.new_transaction self schemaRegistryId schema name description url
               revokable) w /\
      Sui.Schema_newWithResolver self schema name description url revokable
        (start_session w)
        = Sui.submit_then_wait self
            (Sui.newWithResolver_transaction self schemaRegistryId schema name
               description url revokable) w
  end.
Proof.
  unfold Sui.Schema_new, Sui.Schema_newWithResolver.
  unfold async_bind at 1 3. unfold async_lift.
  destruct (Sui.getSchemaRegistryId (Sui.chain self) (Sui.network self))
    as [schemaRegistryId | e].
  - split; apply waiting_run.
  - split; reflexivity.
Qed.

(** X2. [newResolverBuilder], [addResolver], [newRequest] and [finishAttest]
    each make one SDK call, the submission of their transaction, and return
    its answer in the world it left, accepted or rejected: none of them waits
    for the transaction. *)
Theorem Schema_operations_that_only_submit (self : Sui.Schema)
  (a b : string) (w : World) :
  Sui.Schema_newResolverBuilder self a b (start_session w)
    = Sui.submit_only self
        [ Sui.MoveCall (Sui.packageId self ++ "::schema::new_resolver_builder")
            [Sui.tx_object a; Sui.tx_object b] ] w /\
  Sui.Schema_addResolver self a b (start_session w)
    = Sui.submit_only self
        [ Sui.MoveCall (Sui.packageId self ++ "::schema::add_resolver")
            [Sui.tx_object a; Sui.tx_object b] ] w /\
  Sui.Schema_newRequest self a b (start_session w)
    = Sui.submit_only self
        [ Sui.MoveCall (Sui.packageId self ++ "::schema::new_request")
            [Sui.tx_object a; Sui.tx_pure_string b];
          Sui.TransferObjects [Sui.tx_Result 0] (Sui.toSuiAddress (Sui.signer self)) ]
        w /\
  Sui.Schema_finishAttest self a b (start_session w)
    = Sui.submit_only self
        [ Sui.MoveCall (Sui.packageId self ++ "::schema::finish_attest")
            [Sui.tx_object a; Sui.tx_object b] ] w.
Proof. repeat split; apply submitting_run. Qed.

Lemma submit_only_within_bounds (self : Sui.Schema) (tx : Sui.Transaction) (w : World) :
  forallb (Sui.command_within_bounds self) tx = true ->
  Forall (Sui.call_within_bounds self) (calls (snd (Sui.submit_only self tx w))).
Proof.
  intro Htx. unfold Sui.submit_only.
  destruct (Sui.client_signAndExecuteTransaction (Sui.client self) (Sui.signer self)
              tx w) as [answer w1]. simpl.
  constructor; [split; [reflexivity | exact Htx] | constructor].
Qed.

Lemma submit_then_wait_within_bounds (self : Sui.Schema) (tx : Sui.Transaction)
  (w : World) :
  forallb (Sui.command_within_bounds self) tx = true ->
  Forall (Sui.call_within_bounds self) (calls (snd (Sui.submit_then_wait self tx w))).
Proof.
  intro Htx. unfold Sui.submit_then_wait.
  destruct (Sui.client_signAndExecuteTransaction (Sui.client self) (Sui.signer self)
              tx w) as [[result | e] w1].
  - destruct (Sui.client_waitForTransaction (Sui.client self) (Sui.digest result)
                true w1) as [receipt w2]. simpl.
    constructor; [split; [reflexivity | exact Htx] |].
    constructor; [reflexivity | constructor].
  - simpl. constructor; [split; [reflexivity | exact Htx] | constructor].
Qed.

Lemma within_bounds_1 (self : Sui.Schema) (function : string)
  (arguments : list Sui.TransactionArgument) :
  forallb (Sui.command_within_bounds self)
    [Sui.MoveCall (Sui.packageId self ++ "::schema::" ++ function) arguments] = true.
Proof.
  cbn [forallb Sui.command_within_bounds].
  rewrite schema_target_within. reflexivity.
Qed.

Lemma within_bounds_2 (self : Sui.Schema) (function : string)
  (arguments objects : list Sui.TransactionArgument) :
  forallb (Sui.command_within_bounds self)
    [ Sui.MoveCall (Sui.packageId self ++ "::schema::" ++ function) arguments;
      Sui.TransferObjects objects (Sui.toSuiAddress (Sui.signer self)) ] = true.
Proof.
  cbn [forallb Sui.command_within_bounds].
  rewrite schema_target_within, String.eqb_refl. reflexivity.
Qed.

(** X3. Whatever its arguments and whatever the chain answers, a write
    operation of [Schema] signs with the signer of the object only, calls
    functions of the [schema] module of the object's package only, transfers
    objects to the address of that signer only, and asks for the effects when
    it waits. *)
Theorem Schema_writes_stay_within_bounds (self : Sui.Schema) (schema : list byte)
  (name description url a b : string) (revokable : bool) (w : World) :
  let bounded (run : Result Sui.SuiTransactionBlockResponse * Session World Sui.SdkCall) :=
    Forall (Sui.call_within_bounds self) (calls (snd run)) in
  bounded (Sui.Schema_new self schema name description url revokable (start_session w)) /\
  bounded (Sui.Schema_newWithResolver self schema name description url revokable
             (start_session w)) /\
  bounded (Sui.Schema_newResolverBuilder self a b (start_session w)) /\
  bounded (Sui.Schema_addResolver self a b (start_session w)) /\
  bounded (Sui.Schema_newRequest self a b (start_session w)) /\
  bounded (Sui.Schema_startAttest self a (start_session w)) /\
  bounded (Sui.Schema_finishAttest self a b (start_session w)).
Proof.
  cbv zeta.
  assert (Hnew :
    Forall (Sui.call_within_bounds self)
      (calls (snd (Sui.Schema_new self schema name description url revokable
                     (start_session w)))) /\
    Forall (Sui.call_within_bounds self)
      (calls (snd (Sui.Schema_newWithResolver self schema name description url
                     revokable (start_session w))))).
  { unfold Sui.Schema_new, Sui.Schema_newWithResolver.
    unfold async_bind at 1 3. unfold async_lift.
    destruct (Sui.getSchemaRegistryId (Sui.chain self) (Sui.network self))
      as [schemaRegistryId | e].
    - rewrite !waiting_run. split; apply submit_then_wait_within_bounds.
      + apply (within_bounds_2 self "new").
      + apply (within_bounds_2 self "new_with_resolver").
    - split; constructor. }
  destruct Hnew as [Hnew Hwith].
  split; [exact Hnew |]. split; [exact Hwith |].
  unfold Sui.Schema_newResolverBuilder, Sui.Schema_addResolver, Sui.Schema_newRequest,
    Sui.Schema_startAttest, Sui.Schema_finishAttest, Sui.startAttest_transaction.
  rewrite !submitting_run.
  repeat split; apply submit_only_within_bounds.
  - apply (within_bounds_1 self "new_resolver_builder").
  - apply (within_bounds_1 self "add_resolver").
  - apply (within_bounds_2 self "new_request").
  - apply (within_bounds_1 self "start_attest").
  - apply (within_bounds_1 self "finish_attest").
Qed.

End ProtocolFacts.

(** ** The protocol of the write operations of [Aas] *)

Lemma aas_target_within (package function : string) :
  String.prefix (package ++ "::aas::") (package ++ "::aas::" ++ function) = true.
Proof.
  apply prefix_append.
  generalize "::aas::". intro m. induction m as [| c m IH]; simpl.
  - destruct function; reflexivity.
  - destruct (Ascii.ascii_dec c c) as [_ | Hne]; [exact IH | contradiction Hne; reflexivity].
Qed.

Section AasProtocolFacts.
Context {World : Type} {env : Aptos.Env World}.

Lemma entry_run (self : Aptos.Aas) (data : Aptos.InputEntryFunctionData) (w : World) :
  async_bind (Aptos.build_simple self data)
    (fun transaction =>
       async_bind (Aptos.signAndSubmitTransaction self transaction)
         (fun tx => Aptos.waitForTransaction self (Aptos.hash tx)))
    (start_session w)
  = Aptos.build_submit_wait self data w.
Proof.
  unfold async_bind, Aptos.build_simple, Aptos.signAndSubmitTransaction,
    Aptos.waitForTransaction, Aptos.build_submit_wait, sdk_call. simpl.
  destruct (Aptos.client_build_simple (Aptos.network self)
              (Aptos.accountAddress (Aptos.account self)) data w)
    as [transaction | e]; simpl; [| reflexivity].
  destruct (Aptos.client_signAndSubmitTransaction (Aptos.network self)
              (Aptos.account self) transaction w) as [[tx | e] w1]; simpl;
    [| reflexivity].
  destruct (Aptos.client_waitForTransaction (Aptos.network self) (Aptos.hash tx) w1)
    as [receipt w2]. reflexivity.
Qed.

(** X4. [createSchema], [createAttestation] and [revokeAttestation] run the
    protocol on the entry function of their own: the transaction is built,
    then signed and submitted, then waited for; when the build fails nothing
    is submitted and the world is as it was, when the submission fails
    nothing is waited for, and otherwise the outcome is the one of the wait.
    A [resolver] left out of [createSchema] is sent as ["0x0"]. *)
Theorem Aas_writes_follow_the_protocol (self : Aptos.Aas) (w : World)
  (bytes : list byte) (name description url a b c : string) (revokable : bool)
  (resolver : option string) (expirationTime : Z) :
  Aptos.createSchema self bytes name description url revokable resolver
    (start_session w)
    = Aptos.build_submit_wait self
        {| Aptos.entry_function := Aptos.packageId self ++ "::aas::create_schema";
           Aptos.functionArguments :=
             [ Aptos.arg_bytes bytes; Aptos.arg_string name;
               Aptos.arg_string description; Aptos.arg_string url;
               Aptos.arg_bool revokable;
               Aptos.arg_string (match resolver with
                                 | Some r => r
                                 | None => "0x0"
                                 end) ] |} w /\
  Aptos.createAttestation self a b c expirationTime revokable bytes (start_session w)
    = Aptos.build_submit_wait self
        {| Aptos.entry_function := Aptos.packageId self ++ "::aas::create_attestation";
           Aptos.functionArguments :=
             [ Aptos.arg_string a; Aptos.arg_string b; Aptos.arg_string c;
               Aptos.arg_number expirationTime; Aptos.arg_bool revokable;
               Aptos.arg_bytes bytes ] |} w /\
  Aptos.revokeAttestation self a b (start_session w)
    = Aptos.build_submit_wait self
        {| Aptos.entry_function := Aptos.packageId self ++ "::aas::revoke_attestation";
           Aptos.functionArguments := [Aptos.arg_string a; Aptos.arg_string b] |} w.
Proof. repeat split; apply entry_run. Qed.

Lemma build_submit_wait_within_bounds (self : Aptos.Aas)
  (data : Aptos.InputEntryFunctionData) (w : World) :
  String.prefix (Aptos.packageId self ++ "::aas::") (Aptos.entry_function data) = true ->
  Forall (Aptos.call_within_bounds self)
    (calls (snd (Aptos.build_submit_wait self data w))).
Proof.
  intro Hdata. unfold Aptos.build_submit_wait.
  destruct (Aptos.client_build_simple (Aptos.network self)
              (Aptos.accountAddress (Aptos.account self)) data w)
    as [transaction | e]; simpl.
  - destruct (Aptos.client_signAndSubmitTransaction (Aptos.network self)
                (Aptos.account self) transaction w) as [[tx | e] w1]; simpl.
    + destruct (Aptos.client_waitForTransaction (Aptos.network self) (Aptos.hash tx) w1)
        as [receipt w2]. simpl.
      repeat constructor; assumption.
    + repeat constructor; assumption.
  - repeat constructor; assumption.
Qed.

(** X5. Whatever its arguments and whatever the chain answers, a write
    operation of [Aas] builds its transaction for the address of the account
    of the object and for a function of the [aas] module of the object's
    package, and has it signed by that account. *)
Theorem Aas_writes_stay_within_bounds (self : Aptos.Aas) (w : World)
  (bytes : list byte) (name description url a b c : string) (revokable : bool)
  (resolver : option string) (expirationTime : Z) :
  let bounded (run : Result Aptos.CommittedTransactionResponse *
                     Session World Aptos.SdkCall) :=
    Forall (Aptos.call_within_bounds self) (calls (snd run)) in
  bounded (Aptos.createSchema self bytes name description url revokable resolver
             (start_session w)) /\
  bounded (Aptos.createAttestation self a b c expirationTime revokable bytes
             (start_session w)) /\
  bounded (Aptos.revokeAttestation self a b (start_session w)).
Proof.
  cbv zeta.
  unfold Aptos.createSchema, Aptos.createAttestation, Aptos.revokeAttestation.
  rewrite !entry_run.
  repeat split; apply build_submit_wait_within_bounds; cbn [Aptos.entry_function].
  - apply (aas_target_within (Aptos.packageId self) "create_schema").
  - apply (aas_target_within (Aptos.packageId self) "create_attestation").
  - apply (aas_target_within (Aptos.packageId self) "revoke_attestation").
Qed.

End AasProtocolFacts.

(** ** Reading one record on Sui *)

Section GetSchemaFacts.
Context {rt : Runtime} {World : Type} {env : Sui.Env World}.

Lemma schema_of_object_fields_inv (object : Sui.SuiObjectData) (fields : JsVal)
  (s : Sui.SuiSchema) :
  Sui.schema_of_object object fields = Ok s ->
  Sui.schemaAddr s = Sui.objectId object /\
  Sui.name s = get fields "name" /\
  Sui.description s = get fields "description" /\
  Sui.url s = get fields "url" /\
  Sui.creator s = get fields "creator" /\
  Sui.createdAt s = get fields "created_at" /\
  Sui.revokable s = get fields "revokable" /\
  new_Uint8Array (get fields "schema") = Ok (Sui.schema s).
Proof.
  unfold Sui.schema_of_object. intro H. bind_inv H.
  repeat match goal with
         | Hp : prop _ _ = Ok _ |- _ => apply prop_ok_get in Hp; subst
         end.
  inversion H; subst s; simpl. repeat split; try reflexivity. assumption.
Qed.

(** X6. An answer of the node that carries an error makes [getSchema] reject
    with ['Failed to fetch object: ...'], whatever data comes with it; an
    answer with no error and no Move object in it (no data, no content, or a
    package) makes it reject with ['Invalid object data']. *)
Theorem getSchema_without_object (id : JsVal) (chain network : string) (w : World)
  (client : Sui.SuiClient) (response : Sui.SuiObjectResponse) :
  Sui.getClient chain network = Ok client ->
  Sui.client_getObject client id w = Ok response ->
  ((exists e, Sui.error response = Present e) ->
   Sui.getSchema id chain network w = Throw Sui.failed_to_fetch) /\
  (Sui.error response = Undefined \/ Sui.error response = Null ->
   Sui.optional_content (Sui.data response) = Undefined \/
   Sui.optional_content (Sui.data response) = Null \/
   (exists d, Sui.optional_content (Sui.data response) = Present (Sui.Package d)) ->
   Sui.getSchema id chain network w = Throw (Error "Invalid object data")).
Proof.
  intros Hc Hr. unfold Sui.getSchema. rewrite Hc. cbn [bind]. rewrite Hr. cbn [bind].
  split.
  - intros [e He]. rewrite He. reflexivity.
  - intros He Hcontent.
    assert (Hgoal :
      match Sui.data response with
      | Present object =>
          match Sui.content object with
          | Present (Sui.MoveObject _ fields) => Sui.schema_of_object object fields
          | _ => Throw (Error "Invalid object data")
          end
      | _ => Throw (Error "Invalid object data")
      end = Throw (Error "Invalid object data")).
    { unfold Sui.optional_content in Hcontent.
      destruct (Sui.data response) as [| | object]; try reflexivity.
      destruct (Sui.content object) as [| | [type fields | d]]; try reflexivity.
      destruct Hcontent as [H | [H | [d H]]]; discriminate H. }
    destruct He as [He | He]; rewrite He; exact Hgoal.
Qed.

(** X7. The entity [getSchema] returns takes its address from the object
    the node answered with, not from the id asked for, and its name,
    description, url, creator, creation time and revokable flag from the
    fields of that object as they are, [created_at] becoming [createdAt]. *)
Theorem getSchema_entity_fields (id : JsVal) (chain network : string) (w : World)
  (s : Sui.SuiSchema) :
  Sui.getSchema id chain network w = Ok s ->
  exists client response object type fields,
    Sui.getClient chain network = Ok client /\
    Sui.client_getObject client id w = Ok response /\
    Sui.data response = Present object /\
    Sui.content object = Present (Sui.MoveObject type fields) /\
    Sui.schemaAddr s = Sui.objectId object /\
    Sui.name s = get fields "name" /\
    Sui.description s = get fields "description" /\
    Sui.url s = get fields "url" /\
    Sui.creator s = get fields "creator" /\
    Sui.createdAt s = get fields "created_at" /\
    Sui.revokable s = get fields "revokable".
Proof.
  intro H.
  destruct (getSchema_ok_inv _ _ _ _ _ H)
    as [client [response [object [type [fields [Hc [Hr [Hd [Hcont Hs]]]]]]]]].
  exists client, response, object, type, fields.
  repeat (split; [assumption |]).
  apply schema_of_object_fields_inv in Hs.
  destruct Hs as [H1 [H2 [H3 [H4 [H5 [H6 [H7 _]]]]]]].
  repeat split; assumption.
Qed.


(** X9. A record whose [tx_hash] field is not an array cannot be read: when
    the object is a Move object whose [schema] field makes a byte array,
    [getSchema] rejects with the [TypeError] of [bs58.encode], although the
    entity declares its [txHash] optional. *)
Theorem getSchema_needs_tx_hash (id : JsVal) (chain network : string) (w : World)
  (client : Sui.SuiClient) (response : Sui.SuiObjectResponse)
  (object : Sui.SuiObjectData) (type : string) (props : list (string * JsVal))
  (bytes : list byte) :
  Sui.getClient chain network = Ok client ->
  Sui.client_getObject client id w = Ok response ->
  Sui.error response = Undefined \/ Sui.error response = Null ->
  Sui.data response = Present object ->
  Sui.content object = Present (Sui.MoveObject type (JObj props)) ->
  new_Uint8Array (lookup "schema" props) = Ok bytes ->
  (forall hash, lookup "tx_hash" props <> JArr hash) ->
  Sui.getSchema id chain network w = Throw (TypeError "Expected Uint8Array").
Proof.
  intros Hc Hr He Hd Hcont Hbytes Hhash.
  unfold Sui.getSchema. rewrite Hc. cbn [bind]. rewrite Hr. cbn [bind].
  assert (Hdecode : Sui.schema_of_object object (JObj props)
                    = Throw (TypeError "Expected Uint8Array")).
  { unfold Sui.schema_of_object.
    destruct (resolver_of_object props) as [v Hv]. rewrite Hv. cbn [bind].
    rewrite !prop_object. cbn [bind get]. rewrite Hbytes. cbn [bind].
    destruct (lookup "tx_hash" props) as [| | b | z | str | hash | ps] eqn:Hl;
      try reflexivity.
    contradiction (Hhash hash). reflexivity. }
  destruct He as [He | He]; rewrite He, Hd, Hcont; exact Hdecode.
Qed.

End GetSchemaFacts.

Lemma getSchema_without_object_witness :
  Sui.getSchema (JStr "0x404") "sui" "testnet" Toy.ledger = Throw Sui.failed_to_fetch /\
  Sui.getSchema (JStr "0xbad") "sui" "testnet"
    (Toy.ledger_with [("0xbad", {| Sui.data := Null; Sui.error := Undefined |})])
    = Throw (Error "Invalid object data").
Proof.
  split.
  - refine (proj1 (@getSchema_without_object Toy.runtime _ Toy.sui_env
                     (JStr "0x404") "sui" "testnet" Toy.ledger Toy.client
                     (Toy.not_found "notExists") eq_refl eq_refl) _).
    eexists. reflexivity.
  - refine (proj2 (@getSchema_without_object Toy.runtime _ Toy.sui_env
                     (JStr "0xbad") "sui" "testnet"
                     (Toy.ledger_with
                        [("0xbad", {| Sui.data := Null; Sui.error := Undefined |})])
                     Toy.client
                     {| Sui.data := Null; Sui.error := Undefined |} eq_refl eq_refl)
              (or_introl eq_refl) (or_introl eq_refl)).
Defined.

Lemma getSchema_entity_fields_witness :
  exists s,
    Sui.getSchema (JStr "alias") "sui" "testnet"
      (Toy.ledger_with
         [("alias", Toy.found "51" Toy.schema_type
                      (Toy.schema_record "51" Toy.alice [x01] "one" "d" "u" true [x00]))])
      = Ok s /\
    Sui.schemaAddr s = "51" /\ Sui.name s = JStr "one" /\ Sui.createdAt s = JStr "0".
Proof.
  match goal with
  | |- exists s, ?run = Ok s /\ _ =>
      destruct run as [s | e] eqn:H; [| vm_compute in H; discriminate H]
  end.
  exists s. split; [reflexivity |].
  destruct (getSchema_entity_fields _ _ _ _ _ H)
    as [client [response [object [type [fields
         [_ [Hr [Hd [Hcont [Haddr [Hname [_ [_ [_ [Hcreated _]]]]]]]]]]]]]]].
  vm_compute in Hr. inversion Hr; subst response; clear Hr.
  simpl in Hd. inversion Hd; subst object; clear Hd.
  simpl in Hcont. inversion Hcont; subst type fields; clear Hcont.
  repeat split; assumption.
Defined.


Lemma getSchema_needs_tx_hash_witness :
  Sui.getSchema (JStr "54") "sui" "testnet"
    (Toy.ledger_with [("54", Toy.found "54" Toy.schema_type Toy.unhashed_record)])
  = Throw (TypeError "Expected Uint8Array").
Proof.
  refine (@getSchema_needs_tx_hash Toy.runtime _ Toy.sui_env
            (JStr "54") "sui" "testnet"
            (Toy.ledger_with [("54", Toy.found "54" Toy.schema_type Toy.unhashed_record)])
            Toy.client
            (Toy.found "54" Toy.schema_type Toy.unhashed_record) _ _
            [ ("name", JStr "four"); ("schema", JArr [JNum 260; JNum (-1)]) ]
            [x04; xff]
            eq_refl eq_refl (or_introl eq_refl) eq_refl eq_refl eq_refl _).
  intros hash H. discriminate H.
Defined.

(** ** Listing on Sui: the empty table and the origin of a rejection *)

Lemma Promise_all_throw_inv {A : Type} (ps : list (Result A)) (e : JsError) :
  Promise_all ps = Throw e -> In (Throw e) ps.
Proof.
  induction ps as [| p rest IH]; simpl; intro H.
  - discriminate H.
  - destruct p as [a | e'].
    + destruct (Promise_all rest) as [l | e''] eqn:Hrest; [discriminate H |].
      inversion H; subst e''. right. apply IH. reflexivity.
    + inversion H. left. reflexivity.
Qed.

Section MoreListingFacts.
Context {rt : Runtime} {World : Type} {env : Sui.Env World}.

(** X10. When the first page of the listing has no entry, [getSchemas]
    returns the empty list and fetches no object, whatever the page says
    about further pages. *)
Theorem getSchemas_of_an_empty_page (chain network : string) (w : World)
  (client : Sui.SuiClient) (tableId : string) (page : Sui.DynamicFieldPage) :
  Sui.getClient chain network = Ok client ->
  Sui.getSchemaRegistryTableId chain network w = Ok tableId ->
  Sui.client_getDynamicFields client tableId None w = Ok page ->
  Sui.page_data page = [] ->
  Sui.getSchemas chain network w = Ok [].
Proof.
  intros Hc Ht Hp Hempty.
  rewrite (getSchemas_unfold _ _ _ _ _ _ Hc Ht Hp), Hempty. reflexivity.
Qed.


End MoreListingFacts.

Lemma getSchemas_of_an_empty_page_witness :
  Sui.getSchemas "sui" "testnet" Toy.empty_table_ledger = Ok [].
Proof.
  exact (@getSchemas_of_an_empty_page Toy.runtime _ Toy.sui_env "sui" "testnet"
           Toy.empty_table_ledger Toy.client "0xe3971"
           (Toy.find_page "0xe3971" None (Toy.listings Toy.empty_table_ledger))
           eq_refl eq_refl eq_refl eq_refl).
Defined.


(** ** Reading the registry on Sui *)

Lemma path_app (v : JsVal) (ks ks' : list string) :
  path v (ks ++ ks') = bind (path v ks) (fun x => path x ks').
Proof.
  revert v. induction ks as [| k rest IH]; intro v; simpl.
  - reflexivity.
  - destruct (prop v k) as [x | e]; simpl; [apply IH | reflexivity].
Qed.

Section MoreRegistryFacts.
Context {World : Type} {env : Sui.Env World}.

(** X12. [getSchemaRegistry] checks the error of the answer and nothing
    else: an answer with an error is rejected with ['Failed to fetch object:
    ...']; an answer with no error and no data, no content or no fields (a
    package) is rejected with the [TypeError] of reading a property of
    [undefined] or [null]. *)
Theorem getSchemaRegistry_without_object (chain network : string) (w : World)
  (client : Sui.SuiClient) (registryId : string) (response : Sui.SuiObjectResponse) :
  Sui.getClient chain network = Ok client ->
  Sui.getSchemaRegistryId chain network = Ok registryId ->
  Sui.client_getObject client (JStr registryId) w = Ok response ->
  ((exists e, Sui.error response = Present e) ->
   Sui.getSchemaRegistry chain network w = Throw Sui.failed_to_fetch) /\
  (Sui.error response = Undefined \/ Sui.error response = Null ->
   (Sui.data response = Undefined ->
    Sui.getSchemaRegistry chain network w = Throw (cannot_read "undefined" "content")) /\
   (Sui.data response = Null ->
    Sui.getSchemaRegistry chain network w = Throw (cannot_read "null" "content")) /\
   (forall object,
      Sui.data response = Present object ->
      (Sui.content object = Undefined ->
       Sui.getSchemaRegistry chain network w = Throw (cannot_read "undefined" "fields")) /\
      (Sui.content object = Null ->
       Sui.getSchemaRegistry chain network w = Throw (cannot_read "null" "fields")) /\
      (forall d,
         Sui.content object = Present (Sui.Package d) ->
         Sui.getSchemaRegistry chain network w
           = Throw (cannot_read "undefined" "inner")))).
Proof.
  intros Hc Hid Hr. unfold Sui.getSchemaRegistry.
  rewrite Hc. cbn [bind]. rewrite Hid. cbn [bind]. rewrite Hr. cbn [bind].
  split.
  - intros [e He]. rewrite He. reflexivity.
  - intros [He | He]; rewrite He;
      (split; [intro Hd; rewrite Hd; reflexivity |];
       split; [intro Hd; rewrite Hd; reflexivity |];
       intros object Hd; rewrite Hd;
       split; [intro Hcont; rewrite Hcont; reflexivity |];
       split; [intro Hcont; rewrite Hcont; reflexivity |];
       intros d Hcont; rewrite Hcont; reflexivity).
Qed.

(** X13. A registry whose inner object has an id and no [version] is not
    refused: [getSchemaRegistry] returns it with an undefined version, and
    [getSchemaRegistryTable] goes on to look up the dynamic field named by
    that undefined value. *)
Theorem getSchemaRegistry_without_version (chain network : string) (w : World)
  (client : Sui.SuiClient) (registryId : string)
  (response : Sui.SuiObjectResponse) (object : Sui.SuiObjectData)
  (type : string) (fields inner_id : JsVal) (props : list (string * JsVal)) :
  Sui.getClient chain network = Ok client ->
  Sui.getSchemaRegistryId chain network = Ok registryId ->
  Sui.client_getObject client (JStr registryId) w = Ok response ->
  Sui.error response = Undefined \/ Sui.error response = Null ->
  Sui.data response = Present object ->
  Sui.content object = Present (Sui.MoveObject type fields) ->
  path fields ["inner"; "fields"] = Ok (JObj props) ->
  path (JObj props) ["id"; "id"] = Ok inner_id ->
  lookup "version" props = JUndefined ->
  Sui.getSchemaRegistry chain network w =
    Ok {| Sui.registry_id := Sui.objectId object;
          Sui.registry_version :=
            {| Sui.version_id := inner_id; Sui.version_version := JUndefined |} |} /\
  Sui.getSchemaRegistryTable chain network w =
    bind (Sui.client_getDynamicFieldObject client inner_id
            {| Sui.name_type := "u64"; Sui.name_value := JUndefined |} w)
         Sui.table_id_of.
Proof.
  intros Hc Hid Hr He Hd Hcont Hinner Hinner_id Hversion.
  assert (Hpath_id : path fields ["inner"; "fields"; "id"; "id"] = Ok inner_id).
  { change ["inner"; "fields"; "id"; "id"] with (["inner"; "fields"] ++ ["id"; "id"]).
    rewrite path_app, Hinner. exact Hinner_id. }
  assert (Hpath_version : path fields ["inner"; "fields"; "version"] = Ok JUndefined).
  { change ["inner"; "fields"; "version"] with (["inner"; "fields"] ++ ["version"]).
    rewrite path_app, Hinner. cbn [bind path prop get]. rewrite Hversion. reflexivity. }
  pose proof (getSchemaRegistry_fetched _ _ _ _ _ _ _ _ _ _ _
                Hc Hid Hr He Hd Hcont Hpath_id Hpath_version) as Hreg.
  split; [exact Hreg |].
  rewrite (getSchemaRegistryTable_unfold _ _ _ _ _ Hc Hreg). reflexivity.
Qed.

End MoreRegistryFacts.

Lemma getSchemaRegistry_without_object_witness :
  Sui.getSchemaRegistry "sui" "testnet"
    (Toy.ledger_with [(Toy.toy_registry, Toy.not_found "deleted")])
    = Throw Sui.failed_to_fetch /\
  Sui.getSchemaRegistry "sui" "testnet"
    (Toy.ledger_with
       [(Toy.toy_registry, {| Sui.data := Undefined; Sui.error := Null |})])
    = Throw (cannot_read "undefined" "content").
Proof.
  split.
  - refine (proj1 (@getSchemaRegistry_without_object _ Toy.sui_env "sui" "testnet"
                     (Toy.ledger_with [(Toy.toy_registry, Toy.not_found "deleted")])
                     Toy.client Toy.toy_registry (Toy.not_found "deleted")
                     eq_refl eq_refl eq_refl) _).
    eexists. reflexivity.
  - refine (proj1 (proj2 (@getSchemaRegistry_without_object _ Toy.sui_env
                            "sui" "testnet"
                            (Toy.ledger_with
                               [(Toy.toy_registry,
                                 {| Sui.data := Undefined; Sui.error := Null |})])
                            Toy.client Toy.toy_registry
                            {| Sui.data := Undefined; Sui.error := Null |}
                            eq_refl eq_refl eq_refl)
                     (or_intror eq_refl)) eq_refl).
Defined.

Lemma getSchemaRegistry_without_version_witness :
  Sui.getSchemaRegistry "sui" "testnet"
    (Toy.ledger_with
       [(Toy.toy_registry, Toy.found Toy.toy_registry "R" Toy.unversioned_registry)])
  = Ok {| Sui.registry_id := Toy.toy_registry;
          Sui.registry_version :=
            {| Sui.version_id := JStr "0x1ee7"; Sui.version_version := JUndefined |} |}.
Proof.
  refine (proj1 (@getSchemaRegistry_without_version _ Toy.sui_env "sui" "testnet"
                   (Toy.ledger_with
                      [(Toy.toy_registry,
                        Toy.found Toy.toy_registry "R" Toy.unversioned_registry)])
                   Toy.client Toy.toy_registry
                   (Toy.found Toy.toy_registry "R" Toy.unversioned_registry)
                   _ _ _ (JStr "0x1ee7") [("id", JObj [("id", JStr "0x1ee7")])]
                   eq_refl eq_refl eq_refl (or_introl eq_refl) eq_refl eq_refl
                   eq_refl eq_refl eq_refl)).
Defined.

(** ** Reading on Aptos *)

Section MoreAptosReadFacts.
Context {rt : Runtime} {World : Type} {env : Aptos.Env World}.

Lemma attestation_of_view_rejections (addr : string) (l : list JsVal) (e : JsError) :
  Aptos.attestation_of_view addr (JArr l) = Throw e ->
  e = cannot_read "undefined" "attestor" \/ e = cannot_read "null" "attestor" \/
  exists v, Hex_fromHexString v = Throw e.
Proof.
  unfold Aptos.attestation_of_view. cbn [first_element bind].
  destruct (nth 0 l JUndefined) as [| | b | z | str | l' | props] eqn:Hrecord;
    cbn [prop bind]; intro H;
    try (inversion H; subst e; auto; fail);
    match type of H with
    | context [Hex_fromHexString ?v] =>
        destruct (Hex_fromHexString v) as [bs | e'] eqn:Hhex;
        cbn [bind] in H; [discriminate H |];
        inversion H; subst e'; right; right; exists v; exact Hhex
    end.
Qed.

(** X14. Of an array answered by the view, the readers use the first
    element and nothing else: an answer with further elements is read as the
    answer with the first element alone. *)
Theorem readers_use_the_first_element_only (network addr packageId : string)
  (w w' : World) (x : JsVal) (rest : list JsVal) :
  Aptos.getPackageAddress "aptos" network = Ok packageId ->
  (Aptos.client_view network (packageId ++ "::schema::schema_data") [JStr addr] w
     = Ok (JArr (x :: rest)) ->
   Aptos.client_view network (packageId ++ "::schema::schema_data") [JStr addr] w'
     = Ok (JArr [x]) ->
   Aptos.getAptosSchema network addr w = Aptos.getAptosSchema network addr w') /\
  (Aptos.client_view network (packageId ++ "::attestation::attestation_data")
     [JStr addr] w = Ok (JArr (x :: rest)) ->
   Aptos.client_view network (packageId ++ "::attestation::attestation_data")
     [JStr addr] w' = Ok (JArr [x]) ->
   Aptos.getAptosAttestation network addr w = Aptos.getAptosAttestation network addr w').
Proof.
  intro Hp. split; intros Hw Hw'.
  - unfold Aptos.getAptosSchema. rewrite Hp. cbn [bind]. rewrite Hw, Hw'. reflexivity.
  - unfold Aptos.getAptosAttestation. rewrite Hp. cbn [bind]. rewrite Hw, Hw'.
    reflexivity.
Qed.

(** X15. The guards fire on every answer that is not truthy ([undefined],
    [null], [false], [0], the empty string): [getAptosSchema] rejects with
    ['Schema not found'] and [getAptosAttestation] with ['Attestation not
    found']. *)
Theorem not_found_guard_fires_on_falsy_answers (network addr packageId : string)
  (w : World) (answer : JsVal) :
  Aptos.getPackageAddress "aptos" network = Ok packageId ->
  js_truthy answer = false ->
  (Aptos.client_view network (packageId ++ "::schema::schema_data") [JStr addr] w
     = Ok answer ->
   Aptos.getAptosSchema network addr w = Throw (Error "Schema not found")) /\
  (Aptos.client_view network (packageId ++ "::attestation::attestation_data")
     [JStr addr] w = Ok answer ->
   Aptos.getAptosAttestation network addr w = Throw (Error "Attestation not found")).
Proof.
  intros Hp Hfalsy. split; intro Hv.
  - unfold Aptos.getAptosSchema. rewrite Hp. cbn [bind]. rewrite Hv. cbn [bind].
    rewrite Hfalsy. reflexivity.
  - unfold Aptos.getAptosAttestation. rewrite Hp. cbn [bind]. rewrite Hv. cbn [bind].
    rewrite Hfalsy. reflexivity.
Qed.

(** X16. The entity [getAptosSchema] returns carries the address that was
    asked for, whatever the answer holds; its name, description, url,
    creator, creation time, revokable flag and resolver are the properties of
    the first element of the answer as they are, and its schema bytes are the
    [schema] property put through the hex parser. *)
Theorem getAptosSchema_entity_fields (network addr : string) (w : World)
  (s : Aptos.AptosSchema) :
  Aptos.getAptosSchema network addr w = Ok s ->
  exists packageId schemas record,
    Aptos.getPackageAddress "aptos" network = Ok packageId /\
    Aptos.client_view network (packageId ++ "::schema::schema_data") [JStr addr] w
      = Ok schemas /\
    first_element schemas = Ok record /\
    Aptos.schemaAddr s = addr /\
    Aptos.name s = get record "name" /\
    Aptos.description s = get record "description" /\
    Aptos.url s = get record "url" /\
    Aptos.creator s = get record "creator" /\
    Aptos.createdAt s = get record "created_at" /\
    Aptos.revokable s = get record "revokable" /\
    Aptos.resolver s = get record "resolver" /\
    Hex_fromHexString (get record "schema") = Ok (Aptos.schema s).
Proof.
  unfold Aptos.getAptosSchema. intro H. bind_inv H.
  destruct (negb (js_truthy x0)); [discriminate H |].
  unfold Aptos.schema_of_view in H. bind_inv H.
  repeat match goal with
         | Hp : prop _ _ = Ok _ |- _ => apply prop_ok_get in Hp; subst
         end.
  exists x, x0, x1. inversion H; subst s; simpl.
  repeat split; try reflexivity; assumption.
Qed.

(** X17. The entity [getAptosAttestation] returns carries the address that
    was asked for; its attestor, recipient, schema address, referenced
    attestation, times, revokable flag and transaction hash are the
    properties of the first element of the answer as they are
    ([ref_attestation], [expiration_time] and [revocation_time] renamed), and
    its data bytes are the [data] property put through the hex parser. *)
Theorem getAptosAttestation_entity_fields (network addr : string) (w : World)
  (a : Aptos.AptosAttestation) :
  Aptos.getAptosAttestation network addr w = Ok a ->
  exists packageId res record,
    Aptos.getPackageAddress "aptos" network = Ok packageId /\
    Aptos.client_view network (packageId ++ "::attestation::attestation_data")
      [JStr addr] w = Ok res /\
    first_element res = Ok record /\
    Aptos.attestationAddr a = addr /\
    Aptos.attestor a = get record "attestor" /\
    Aptos.recipient a = get record "recipient" /\
    Aptos.attestation_schemaAddr a = get record "schema" /\
    Aptos.refAttestation a = get record "ref_attestation" /\
    Aptos.time a = get record "time" /\
    Aptos.expirationTime a = get record "expiration_time" /\
    Aptos.revocationTime a = get record "revocation_time" /\
    Aptos.attestation_revokable a = get record "revokable" /\
    Aptos.attestation_txHash a = get record "tx_hash" /\
    Hex_fromHexString (get record "data") = Ok (Aptos.data a).
Proof.
  unfold Aptos.getAptosAttestation. intro H. bind_inv H.
  destruct (negb (js_truthy x0)); [discriminate H |].
  unfold Aptos.attestation_of_view in H. bind_inv H.
  repeat match goal with
         | Hp : prop _ _ = Ok _ |- _ => apply prop_ok_get in Hp; subst
         end.
  exists x, x0, x1. inversion H; subst a; simpl.
  repeat split; try reflexivity; assumption.
Qed.

(** X18. On an array answer a reader fails only in two ways: by reading the
    first property of a first element that is missing or [null], or inside
    the hex parser; it has no other error to give. *)
Theorem readers_rejections_on_arrays (network addr packageId : string)
  (w : World) (l : list JsVal) (e : JsError) :
  Aptos.getPackageAddress "aptos" network = Ok packageId ->
  (Aptos.client_view network (packageId ++ "::schema::schema_data") [JStr addr] w
     = Ok (JArr l) ->
   Aptos.getAptosSchema network addr w = Throw e ->
   e = cannot_read "undefined" "name" \/ e = cannot_read "null" "name" \/
   exists v, Hex_fromHexString v = Throw e) /\
  (Aptos.client_view network (packageId ++ "::attestation::attestation_data")
     [JStr addr] w = Ok (JArr l) ->
   Aptos.getAptosAttestation network addr w = Throw e ->
   e = cannot_read "undefined" "attestor" \/ e = cannot_read "null" "attestor" \/
   exists v, Hex_fromHexString v = Throw e).
Proof.
  intro Hp. split; intros Hv H.
  - unfold Aptos.getAptosSchema in H. rewrite Hp in H. cbn [bind] in H.
    rewrite Hv in H. cbn [bind js_truthy negb] in H.
    exact (schema_of_view_rejections _ _ _ H).
  - unfold Aptos.getAptosAttestation in H. rewrite Hp in H. cbn [bind] in H.
    rewrite Hv in H. cbn [bind js_truthy negb] in H.
    exact (attestation_of_view_rejections _ _ _ H).
Qed.

End MoreAptosReadFacts.

Lemma readers_use_the_first_element_only_witness :
  Aptos.getAptosSchema "testnet" "0x51"
    (Toy.aptos_ledger (JArr [Toy.schema_data; JNull; JStr "more"]))
  = Aptos.getAptosSchema "testnet" "0x51" (Toy.aptos_ledger (JArr [Toy.schema_data])).
Proof.
  exact (proj1 (@readers_use_the_first_element_only Toy.runtime _ Toy.aptos_env
                  "testnet" "0x51" Toy.toy_package
                  (Toy.aptos_ledger (JArr [Toy.schema_data; JNull; JStr "more"]))
                  (Toy.aptos_ledger (JArr [Toy.schema_data]))
                  Toy.schema_data [JNull; JStr "more"] eq_refl) eq_refl eq_refl).
Defined.

Lemma not_found_guard_fires_on_falsy_answers_witness :
  Aptos.getAptosSchema "testnet" "0x51" (Toy.aptos_ledger (JStr ""))
    = Throw (Error "Schema not found") /\
  Aptos.getAptosAttestation "testnet" "0x51" (Toy.aptos_ledger (JNum 0))
    = Throw (Error "Attestation not found").
Proof.
  split.
  - exact (proj1 (@not_found_guard_fires_on_falsy_answers Toy.runtime _ Toy.aptos_env
                    "testnet" "0x51" Toy.toy_package (Toy.aptos_ledger (JStr ""))
                    (JStr "") eq_refl eq_refl) eq_refl).
  - exact (proj2 (@not_found_guard_fires_on_falsy_answers Toy.runtime _ Toy.aptos_env
                    "testnet" "0x51" Toy.toy_package (Toy.aptos_ledger (JNum 0))
                    (JNum 0) eq_refl eq_refl) eq_refl).
Defined.

Lemma getAptosSchema_entity_fields_witness :
  exists s,
    Aptos.getAptosSchema "testnet" "0xa5ked" (Toy.aptos_ledger (JArr [Toy.schema_data]))
      = Ok s /\
    Aptos.schemaAddr s = "0xa5ked" /\ Aptos.name s = JStr "one" /\
    Aptos.schema s = [x01; x02].
Proof.
  match goal with
  | |- exists s, ?run = Ok s /\ _ =>
      destruct run as [s | e] eqn:H; [| vm_compute in H; discriminate H]
  end.
  exists s. split; [reflexivity |].
  destruct (getAptosSchema_entity_fields _ _ _ _ H)
    as [packageId [schemas [record [_ [Hv [Hf [Haddr [Hname [_ [_ [_ [_ [_ [_ Hhex]]]]]]]]]]]]]].
  vm_compute in Hv. inversion Hv; subst schemas; clear Hv.
  vm_compute in Hf. inversion Hf; subst record; clear Hf.
  split; [exact Haddr |]. split; [exact Hname |].
  vm_compute in Hhex. injection Hhex as Hbytes. symmetry. exact Hbytes.
Defined.

Lemma getAptosAttestation_entity_fields_witness :
  exists a,
    Aptos.getAptosAttestation "testnet" "0xa5ked"
      (Toy.aptos_ledger (JArr [Toy.attestation_data])) = Ok a /\
    Aptos.attestationAddr a = "0xa5ked" /\
    Aptos.attestation_schemaAddr a = JStr "0x51" /\
    Aptos.data a = [xff; x00].
Proof.
  match goal with
  | |- exists a, ?run = Ok a /\ _ =>
      destruct run as [a | e] eqn:H; [| vm_compute in H; discriminate H]
  end.
  exists a. split; [reflexivity |].
  destruct (getAptosAttestation_entity_fields _ _ _ _ H)
    as [packageId [res [record
         [_ [Hv [Hf [Haddr [_ [_ [Hschema [_ [_ [_ [_ [_ [_ Hhex]]]]]]]]]]]]]]]].
  vm_compute in Hv. inversion Hv; subst res; clear Hv.
  vm_compute in Hf. inversion Hf; subst record; clear Hf.
  split; [exact Haddr |]. split; [exact Hschema |].
  vm_compute in Hhex. injection Hhex as Hbytes. symmetry. exact Hbytes.
Defined.

Lemma readers_rejections_on_arrays_witness :
  exists e,
    Aptos.getAptosSchema "testnet" "0x51"
      (Toy.aptos_ledger (JArr [JObj [("schema", JStr "0xzz")]])) = Throw e /\
    exists v, Hex_fromHexString v = Throw e.
Proof.
  match goal with
  | |- exists e, ?run = Throw e /\ _ =>
      destruct run as [s | e] eqn:H; [vm_compute in H; discriminate H |]
  end.
  exists e. split; [reflexivity |].
  destruct (proj1 (@readers_rejections_on_arrays Toy.runtime _ Toy.aptos_env
                     "testnet" "0x51" Toy.toy_package
                     (Toy.aptos_ledger (JArr [JObj [("schema", JStr "0xzz")]]))
                     [JObj [("schema", JStr "0xzz")]] e eq_refl) eq_refl H)
    as [He | [He | Hhex]].
  - vm_compute in H. inversion H as [He']. rewrite He in He'. discriminate He'.
  - vm_compute in H. inversion H as [He']. rewrite He in He'. discriminate He'.
  - exact Hhex.
Defined.

(** ** The resolver validates the network and nothing else *)

(** X19. Whether the three resolver functions answer depends on the name of
    the network alone, compared as it is written with [mainnet], [testnet]
    and [devnet], and never on the configuration: what the entry holds is
    returned as it is, an identifier left empty included. *)
Theorem resolver_returns_what_the_table_holds
  (PACKAGES : Utils.Packages) (network : string) :
  is_ok (Utils.getPackageId PACKAGES network) = Utils.known network /\
  is_ok (Utils.getSchemaRegistryId PACKAGES network) = Utils.known network /\
  is_ok (Utils.getAttestationRegistryId PACKAGES network) = Utils.known network /\
  match Utils.entry PACKAGES network with
  | Some c =>
      Utils.getPackageId PACKAGES network = Ok (Utils.PackageID c) /\
      Utils.getSchemaRegistryId PACKAGES network = Ok (Utils.SchemaRegistryID c) /\
      Utils.getAttestationRegistryId PACKAGES network
        = Ok (Utils.AttestationRegistryID c)
  | None => Utils.known network = false
  end.
Proof.
  unfold Utils.known, Utils.known_networks, Utils.entry, Utils.getPackageId,
    Utils.getSchemaRegistryId, Utils.getAttestationRegistryId. simpl.
  destruct (String.eqb network "mainnet");
    [| destruct (String.eqb network "testnet");
       [| destruct (String.eqb network "devnet")]];
    simpl; repeat split.
Qed.

(** A configuration with nothing filled in: the known networks still resolve,
    to the empty string. *)
Example resolver_on_an_empty_table :
  let blank := {| Utils.PackageID := ""; Utils.SchemaRegistryID := "";
                  Utils.AttestationRegistryID := "" |} in
  let table := {| Utils.mainnet := blank; Utils.testnet := blank;
                  Utils.devnet := blank |} in
  Utils.getPackageId table "mainnet" = Ok "" /\
  Utils.getSchemaRegistryId table "Testnet" = Throw Utils.ConfigurationError.
Proof. split; reflexivity. Qed.

(** ** base58 is faithful *)

Import Numerals.

Lemma push_carry_zero (fuel : nat) : push_carry fuel 0 = [].
Proof. destruct fuel; reflexivity. Qed.

Lemma push_carry_value (fuel : nat) (c : N) :
  (N.to_nat c <= fuel)%nat -> le_value 58 (push_carry fuel c) = c.
Proof.
  revert c. induction fuel as [| fuel IH]; intros c Hc; cbn [push_carry].
  - cbn [le_value]. lia.
  - destruct (N.eqb_spec c 0) as [-> | Hne]; [reflexivity |].
    cbn [le_value]. rewrite IH.
    + pose proof (N.Div0.div_mod c 58). lia.
    + assert (c / 58 < c)%N by (apply N.div_lt; lia). lia.
Qed.

Lemma muladd_value (digits : list N) (carry : N) :
  le_value 58 (muladd digits carry) = (carry + 256 * le_value 58 digits)%N.
Proof.
  revert carry. induction digits as [| d rest IH]; intro carry;
    cbn [muladd le_value].
  - rewrite push_carry_value by lia. lia.
  - rewrite IH. pose proof (N.Div0.div_mod (carry + 256 * d) 58). lia.
Qed.

Lemma b58_fold_value (source : list byte) (digits : list N) :
  le_value 58 (fold_left (fun ds b => muladd ds (Byte.to_N b)) source digits)
  = be_value (le_value 58 digits) source.
Proof.
  revert digits. induction source as [| b rest IH]; intro digits;
    cbn [fold_left].
  - reflexivity.
  - rewrite IH, muladd_value. unfold be_value. cbn [fold_left]. f_equal. lia.
Qed.

Lemma push_carry_bounded (fuel : nat) (c : N) : bounded 58 (push_carry fuel c).
Proof.
  revert c. induction fuel as [| fuel IH]; intro c; cbn [push_carry].
  - constructor.
  - destruct (N.eqb c 0); constructor; [apply N.mod_lt; lia | apply IH].
Qed.

Lemma muladd_bounded (digits : list N) (carry : N) : bounded 58 (muladd digits carry).
Proof.
  revert carry. induction digits as [| d rest IH]; intro carry; cbn [muladd].
  - apply push_carry_bounded.
  - constructor; [apply N.mod_lt; lia | apply IH].
Qed.

Lemma b58_fold_bounded (source : list byte) (digits : list N) :
  bounded 58 digits ->
  bounded 58 (fold_left (fun ds b => muladd ds (Byte.to_N b)) source digits).
Proof.
  revert digits. induction source as [| b rest IH]; intros digits H;
    cbn [fold_left].
  - exact H.
  - apply IH. apply muladd_bounded.
Qed.

Lemma canonical_cons (d : N) (rest : list N) :
  rest <> [] -> (canonical (d :: rest) <-> canonical rest).
Proof.
  unfold canonical. destruct rest as [| x rest']; [intro H; contradiction H; reflexivity |].
  intros _. cbn [last]. reflexivity.
Qed.

Lemma push_carry_canonical (fuel : nat) (c : N) :
  (N.to_nat c <= fuel)%nat ->
  canonical (push_carry fuel c) /\ (c <> 0%N -> push_carry fuel c <> []).
Proof.
  revert c. induction fuel as [| fuel IH]; intros c Hc; cbn [push_carry].
  - split; [unfold canonical; cbn [last]; lia | lia].
  - destruct (N.eqb_spec c 0) as [-> | Hne].
    + split; [unfold canonical; cbn [last]; lia | intro H; contradiction H; reflexivity].
    + split; [| discriminate].
      assert (Hlt : (c / 58 < c)%N) by (apply N.div_lt; lia).
      destruct (IH (c / 58)%N ltac:(lia)) as [Hcan Hnonempty].
      destruct (N.eqb_spec (c / 58) 0) as [Hz | Hnz].
      * rewrite Hz, push_carry_zero. unfold canonical. cbn [last].
        assert (c < 58)%N by (apply N.div_small_iff in Hz; lia).
        rewrite N.mod_small by assumption. exact Hne.
      * apply canonical_cons; [apply Hnonempty; exact Hnz | exact Hcan].
Qed.

Lemma muladd_nonempty (digits : list N) (carry : N) :
  digits <> [] -> muladd digits carry <> [].
Proof. destruct digits; [intro H; contradiction H; reflexivity | discriminate]. Qed.

Lemma muladd_canonical (digits : list N) (carry : N) :
  canonical digits -> canonical (muladd digits carry).
Proof.
  revert carry. induction digits as [| d rest IH]; intros carry Hcan.
  - cbn [muladd]. apply push_carry_canonical. lia.
  - cbn [muladd]. destruct rest as [| x rest'].
    + unfold canonical in Hcan. cbn [last] in Hcan. cbn [muladd].
      assert (Hbig : ((carry + 256 * d) / 58 <> 0)%N).
      { intro Hz. apply N.div_small_iff in Hz; lia. }
      destruct (push_carry_canonical (N.to_nat ((carry + 256 * d) / 58))
                  ((carry + 256 * d) / 58)%N ltac:(lia)) as [Hc Hne].
      apply canonical_cons; [exact (Hne Hbig) | exact Hc].
    + apply canonical_cons.
      * apply muladd_nonempty. discriminate.
      * apply IH. apply (canonical_cons d (x :: rest')); [discriminate | exact Hcan].
Qed.

Lemma b58_fold_canonical (source : list byte) (digits : list N) :
  canonical digits ->
  canonical (fold_left (fun ds b => muladd ds (Byte.to_N b)) source digits).
Proof.
  revert digits. induction source as [| b rest IH]; intros digits H;
    cbn [fold_left].
  - exact H.
  - apply IH. apply muladd_canonical. exact H.
Qed.

(** A canonical numeral that has a digit stands for a positive number. *)
Lemma canonical_value_pos (base : N) (digits : list N) :
  (0 < base)%N -> digits <> [] -> canonical digits -> (0 < le_value base digits)%N.
Proof.
  intro Hbase. induction digits as [| d rest IH]; intros Hne Hcan.
  - contradiction Hne. reflexivity.
  - cbn [le_value]. destruct rest as [| x rest'].
    + unfold canonical in Hcan. cbn [last le_value] in *. lia.
    + assert (0 < le_value base (x :: rest'))%N.
      { apply IH; [discriminate |].
        apply (canonical_cons d (x :: rest')); [discriminate | exact Hcan]. }
      nia.
Qed.

(** Canonical numerals with digits below the base are unique. *)
Lemma canonical_unique (base : N) (a b : list N) :
  (0 < base)%N ->
  bounded base a -> bounded base b -> canonical a -> canonical b ->
  le_value base a = le_value base b -> a = b.
Proof.
  intro Hbase. revert b. induction a as [| x a' IH]; intros b Ha Hb Hca Hcb Hv.
  - destruct b as [| y b']; [reflexivity |].
    pose proof (canonical_value_pos base (y :: b') Hbase ltac:(discriminate) Hcb).
    cbn [le_value] in Hv, H. lia.
  - destruct b as [| y b'].
    + pose proof (canonical_value_pos base (x :: a') Hbase ltac:(discriminate) Hca).
      cbn [le_value] in Hv, H. lia.
    + inversion Ha as [| ? ? Hx Ha']; subst. inversion Hb as [| ? ? Hy Hb']; subst.
      cbn [le_value] in Hv.
      assert (Hxy : x = y /\ le_value base a' = le_value base b').
      { assert (Hm : ((x + base * le_value base a') mod base
                      = (y + base * le_value base b') mod base)%N) by (rewrite Hv; reflexivity).
        rewrite !(N.mul_comm base) in Hm.
        rewrite !N.Div0.mod_add, !N.mod_small in Hm by assumption.
        split; [exact Hm | subst; nia]. }
      destruct Hxy as [-> Hrest]. f_equal.
      assert (Hcan' : forall d l, canonical (d :: l) -> canonical l).
      { intros d l Hc. destruct l as [| z l'].
        - unfold canonical. cbn [last]. lia.
        - apply (canonical_cons d (z :: l')); [discriminate | exact Hc]. }
      apply IH; [assumption | assumption | exact (Hcan' _ _ Hca) | exact (Hcan' _ _ Hcb) | exact Hrest].
Qed.

Lemma skip_zeroes_spec (source : list byte) :
  source = repeat x00 (fst (skip_zeroes source)) ++ snd (skip_zeroes source) /\
  hd x01 (snd (skip_zeroes source)) <> x00.
Proof.
  induction source as [| b rest IH]; cbn [skip_zeroes].
  - split; [reflexivity | discriminate].
  - destruct (Byte.eqb b x00) eqn:Hb.
    + destruct (skip_zeroes rest) as [zeroes tail]. cbn [fst snd] in *.
      apply Byte.byte_dec_bl in Hb. subst b.
      destruct IH as [Hrest Hhd]. split; [| exact Hhd].
      cbn [repeat app]. f_equal. exact Hrest.
    + cbn [fst snd repeat app hd]. split; [reflexivity |].
      intro Hz. subst b. discriminate Hb.
Qed.

Lemma be_value_snoc (acc : N) (source : list byte) (b : byte) :
  be_value acc (source ++ [b]) = (256 * be_value acc source + Byte.to_N b)%N.
Proof. unfold be_value. rewrite fold_left_app. reflexivity. Qed.

Lemma be_value_le_value (source : list byte) :
  be_value 0 source = le_value 256 (rev (map Byte.to_N source)).
Proof.
  induction source as [| b rest IH] using rev_ind.
  - reflexivity.
  - rewrite be_value_snoc, map_app, rev_app_distr. cbn [map rev app le_value].
    rewrite IH. lia.
Qed.

Lemma to_N_zero (b : byte) : Byte.to_N b = 0%N -> b = x00.
Proof.
  intro H. pose proof (Byte.of_to_N b) as Hb. rewrite H in Hb.
  inversion Hb. reflexivity.
Qed.

Lemma to_N_injective (a b : byte) : Byte.to_N a = Byte.to_N b -> a = b.
Proof.
  intro H. pose proof (Byte.of_to_N a) as Ha. rewrite H, Byte.of_to_N in Ha.
  inversion Ha. reflexivity.
Qed.

Lemma map_to_N_injective (a b : list byte) :
  map Byte.to_N a = map Byte.to_N b -> a = b.
Proof.
  revert b. induction a as [| x a' IH]; intros [| y b'] H; try discriminate H.
  - reflexivity.
  - cbn [map] in H. inversion H as [[Hx Hrest]].
    f_equal; [apply to_N_injective; exact Hx | apply IH; exact Hrest].
Qed.

Lemma bytes_canonical (tail : list byte) :
  hd x01 tail <> x00 -> canonical (rev (map Byte.to_N tail)).
Proof.
  unfold canonical. destruct tail as [| b rest]; cbn [hd map rev]; intro H.
  - cbn [last]. lia.
  - rewrite last_last. intro Hz. apply H. apply to_N_zero. exact Hz.
Qed.

Lemma bytes_bounded (tail : list byte) : bounded 256 (rev (map Byte.to_N tail)).
Proof.
  apply Forall_rev. apply Forall_map. apply Forall_forall. intros b _.
  pose proof (Byte.to_N_bounded b). lia.
Qed.

(** Byte sequences that do not start with a zero byte and stand for the same
    number are the same. *)
Lemma be_value_injective (a b : list byte) :
  hd x01 a <> x00 -> hd x01 b <> x00 -> be_value 0 a = be_value 0 b -> a = b.
Proof.
  intros Ha Hb Hv. rewrite !be_value_le_value in Hv.
  apply (canonical_unique 256) in Hv;
    [| lia | apply bytes_bounded | apply bytes_bounded
     | apply bytes_canonical; exact Ha | apply bytes_canonical; exact Hb].
  apply (f_equal (@rev N)) in Hv. rewrite !rev_involutive in Hv.
  apply map_to_N_injective. exact Hv.
Qed.

Lemma b58_digits_spec (tail : list byte) :
  le_value 58 (b58_digits tail) = be_value 0 tail /\
  bounded 58 (b58_digits tail) /\ canonical (b58_digits tail).
Proof.
  unfold b58_digits. split; [| split].
  - rewrite b58_fold_value. reflexivity.
  - apply b58_fold_bounded. constructor.
  - apply b58_fold_canonical. unfold canonical. cbn [last]. lia.
Qed.

Lemma alphabet_index_char (d : N) :
  (d < 58)%N -> alphabet_index (alphabet_char d) = d.
Proof.
  intro Hd.
  assert (Hall : forallb (fun n => N.eqb (alphabet_index (alphabet_char (N.of_nat n)))
                                     (N.of_nat n)) (seq 0 58) = true)
    by (vm_compute; reflexivity).
  rewrite forallb_forall in Hall.
  specialize (Hall (N.to_nat d)). rewrite N2Nat.id in Hall.
  apply N.eqb_eq. apply Hall. apply in_seq. lia.
Qed.

Lemma alphabet_chars_injective (a b : list N) :
  bounded 58 a -> bounded 58 b ->
  map alphabet_char a = map alphabet_char b -> a = b.
Proof.
  revert b. induction a as [| x a' IH]; intros [| y b'] Ha Hb H; try discriminate H.
  - reflexivity.
  - inversion Ha as [| ? ? Hx Ha']; subst. inversion Hb as [| ? ? Hy Hb']; subst.
    cbn [map] in H. inversion H as [[Hc Hrest]]. f_equal.
    + rewrite <- (alphabet_index_char x Hx), <- (alphabet_index_char y Hy), Hc.
      reflexivity.
    + apply IH; assumption.
Qed.

(** The text of the digits does not start with the character of zero. *)
Lemma digits_text_head (digits : list N) :
  bounded 58 digits -> canonical digits ->
  hd_error (map alphabet_char (rev digits)) <> Some "1"%char.
Proof.
  intros Hb Hc. destruct (rev digits) as [| d r] eqn:Hrev; cbn [map hd_error].
  - discriminate.
  - assert (Hdigits : digits = rev r ++ [d]).
    { rewrite <- (rev_involutive digits), Hrev. reflexivity. }
    subst digits. unfold canonical in Hc. rewrite last_last in Hc.
    assert (Hd : (d < 58)%N).
    { unfold bounded in Hb. rewrite Forall_forall in Hb. apply Hb.
      apply in_or_app. right. left. reflexivity. }
    intro H. inversion H as [Hchar].
    apply (f_equal alphabet_index) in Hchar.
    rewrite (alphabet_index_char d Hd) in Hchar. apply Hc. exact Hchar.
Qed.

Lemma repeat_prefix_unique {A : Type} (x : A) (n m : nat) (l l' : list A) :
  hd_error l <> Some x -> hd_error l' <> Some x ->
  repeat x n ++ l = repeat x m ++ l' -> n = m /\ l = l'.
Proof.
  intros Hl Hl'. revert m. induction n as [| n IH]; intros [| m] H; cbn [repeat app] in H.
  - split; [reflexivity | exact H].
  - subst l. contradiction Hl. reflexivity.
  - subst l'. contradiction Hl'. reflexivity.
  - inversion H as [Hrest]. destruct (IH m Hrest) as [Hn Hll].
    split; [f_equal; exact Hn | exact Hll].
Qed.

(** The base58 text determines the bytes. *)
Lemma bs58_encode_bytes_injective (a b : list byte) :
  bs58_encode_bytes a = bs58_encode_bytes b -> a = b.
Proof.
  unfold bs58_encode_bytes. intro H.
  destruct (skip_zeroes_spec a) as [Ha Hhda].
  destruct (skip_zeroes_spec b) as [Hb Hhdb].
  destruct (skip_zeroes a) as [za ta]. destruct (skip_zeroes b) as [zb tb].
  cbn [fst snd] in *.
  apply (f_equal list_ascii_of_string) in H.
  rewrite !list_ascii_of_string_of_list_ascii in H.
  destruct (b58_digits_spec ta) as [Hva [Hba Hca]].
  destruct (b58_digits_spec tb) as [Hvb [Hbb Hcb]].
  apply repeat_prefix_unique in H;
    [| apply digits_text_head; assumption | apply digits_text_head; assumption].
  destruct H as [Hz Htext].
  apply alphabet_chars_injective in Htext;
    [| apply Forall_rev; exact Hba | apply Forall_rev; exact Hbb].
  apply (f_equal (@rev N)) in Htext. rewrite !rev_involutive in Htext.
  assert (Htails : ta = tb).
  { apply be_value_injective; [exact Hhda | exact Hhdb |].
    rewrite <- Hva, <- Hvb, Htext. reflexivity. }
  rewrite Ha, Hb, Hz, Htails. reflexivity.
Qed.

Lemma alphabet_char_in_alphabet (d : N) :
  In (alphabet_char d) (list_ascii_of_string ALPHABET).
Proof.
  unfold alphabet_char.
  destruct (nth_in_or_default (N.to_nat d) (list_ascii_of_string ALPHABET) "1"%char)
    as [Hin | Hdef]; [exact Hin |].
  rewrite Hdef. left. reflexivity.
Qed.

Lemma bs58_encode_bytes_alphabet (source : list byte) :
  Forall (fun c => In c (list_ascii_of_string ALPHABET))
    (list_ascii_of_string (bs58_encode_bytes source)).
Proof.
  unfold bs58_encode_bytes. destruct (skip_zeroes source) as [zeroes tail].
  rewrite list_ascii_of_string_of_list_ascii. apply Forall_app. split.
  - apply Forall_forall. intros c Hc. apply repeat_spec in Hc. subst c.
    left. reflexivity.
  - apply Forall_map. apply Forall_forall. intros d _.
    apply alphabet_char_in_alphabet.
Qed.

Section HashTextFacts.
Context {rt : Runtime} {World : Type} {env : Sui.Env World}.

Lemma getSchema_hash_inv (id : JsVal) (chain network : string) (w : World)
  (s : Sui.SuiSchema) :
  Sui.getSchema id chain network w = Ok s ->
  exists client object fields hash,
    Sui.getClient chain network = Ok client /\
    Sui.serves client w id object fields /\
    get fields "tx_hash" = JArr hash /\
    Sui.txHash s = bs58_encode_bytes (Uint8Array_from hash).
Proof.
  intro H.
  destruct (getSchema_ok_inv _ _ _ _ _ H)
    as [client [response [object [type [fields [Hc [Hr [Hd [Hcont Hs]]]]]]]]].
  apply schema_of_object_ok_inv in Hs. destruct Hs as [_ [_ [Hhash _]]].
  apply bs58_encode_ok_inv in Hhash. destruct Hhash as [hash [Harr Htext]].
  exists client, object, fields, hash.
  split; [exact Hc |]. split; [| split; assumption].
  exists response, type. repeat split; assumption.
Qed.

(** X20. The [txHash] of an entity determines the hash of its record: two
    records read in a world whose entities carry the same [txHash] have
    [tx_hash] fields that make the same bytes. *)
Theorem txHash_determines_the_hash (id id' : JsVal) (chain network : string)
  (w : World) (s s' : Sui.SuiSchema) :
  Sui.getSchema id chain network w = Ok s ->
  Sui.getSchema id' chain network w = Ok s' ->
  Sui.txHash s = Sui.txHash s' ->
  exists client object object' fields fields' hash hash',
    Sui.getClient chain network = Ok client /\
    Sui.serves client w id object fields /\
    Sui.serves client w id' object' fields' /\
    get fields "tx_hash" = JArr hash /\
    get fields' "tx_hash" = JArr hash' /\
    Uint8Array_from hash = Uint8Array_from hash'.
Proof.
  intros H H' Heq.
  destruct (getSchema_hash_inv _ _ _ _ _ H)
    as [client [object [fields [hash [Hc [Hserves [Hhash Htext]]]]]]].
  destruct (getSchema_hash_inv _ _ _ _ _ H')
    as [client' [object' [fields' [hash' [Hc' [Hserves' [Hhash' Htext']]]]]]].
  rewrite Hc in Hc'. inversion Hc'; subst client'.
  exists client, object, object', fields, fields', hash, hash'.
  repeat (split; [assumption |]).
  apply bs58_encode_bytes_injective. rewrite <- Htext, <- Htext'. exact Heq.
Qed.

(** X21. The [txHash] of an entity is written in the 58 characters of the
    base58 alphabet: it has no [0], [O], [I] or [l], and no character outside
    letters and digits. *)
Theorem txHash_is_base58_text (id : JsVal) (chain network : string) (w : World)
  (s : Sui.SuiSchema) :
  Sui.getSchema id chain network w = Ok s ->
  Forall (fun c => In c (list_ascii_of_string ALPHABET))
    (list_ascii_of_string (Sui.txHash s)) /\
  Forall (fun c => ~ In c ["0"; "O"; "I"; "l"]%char)
    (list_ascii_of_string (Sui.txHash s)).
Proof.
  intro H.
  destruct (getSchema_hash_inv _ _ _ _ _ H)
    as [client [object [fields [hash [_ [_ [_ Htext]]]]]]].
  rewrite Htext.
  pose proof (bs58_encode_bytes_alphabet (Uint8Array_from hash)) as Halpha.
  split; [exact Halpha |].
  eapply Forall_impl; [| exact Halpha].
  intros c Hin Hbad. vm_compute in Hin. simpl in Hbad.
  destruct Hbad as [<- | [<- | [<- | [<- | []]]]];
    repeat (destruct Hin as [Hin | Hin]; [discriminate Hin |]); exact Hin.
Qed.

End HashTextFacts.

Lemma txHash_determines_the_hash_witness :
  exists s s',
    Sui.getSchema (JStr "51") "sui" "testnet"
      (Toy.ledger_with [("copy", Toy.find_object "51" (Toy.objects Toy.ledger))]) = Ok s /\
    Sui.getSchema (JStr "copy") "sui" "testnet"
      (Toy.ledger_with [("copy", Toy.find_object "51" (Toy.objects Toy.ledger))]) = Ok s' /\
    Sui.txHash s = Sui.txHash s' /\
    exists hash hash' : list JsVal, Uint8Array_from hash = Uint8Array_from hash'.
Proof.
  match goal with
  | |- exists s s', ?run = Ok s /\ ?run' = Ok s' /\ _ =>
      destruct run as [s | e] eqn:H; [| vm_compute in H; discriminate H];
      destruct run' as [s' | e'] eqn:H'; [| vm_compute in H'; discriminate H']
  end.
  exists s, s'. split; [reflexivity |]. split; [reflexivity |].
  assert (Heq : Sui.txHash s = Sui.txHash s').
  { vm_compute in H, H'. inversion H; inversion H'; reflexivity. }
  split; [exact Heq |].
  destruct (txHash_determines_the_hash _ _ _ _ _ _ _ H H' Heq)
    as [_ [_ [_ [_ [_ [hash [hash' [_ [_ [_ [_ [_ Hbytes]]]]]]]]]]]].
  exists hash, hash'. exact Hbytes.
Defined.

Lemma txHash_is_base58_text_witness :
  exists s,
    Sui.getSchema (JStr "53") "sui" "testnet" Toy.ledger = Ok s /\
    Forall (fun c => In c (list_ascii_of_string ALPHABET))
      (list_ascii_of_string (Sui.txHash s)).
Proof.
  destruct (Sui.getSchema (JStr "53") "sui" "testnet" Toy.ledger) as [s | e] eqn:H;
    [| vm_compute in H; discriminate H].
  exists s. split; [reflexivity |].
  exact (proj1 (txHash_is_base58_text _ _ _ _ _ H)).
Defined.

(** ** Which write operations wait *)

Section WaitingFacts.
Context {SuiWorld AptosWorld : Type}
  {sui : Sui.Env SuiWorld} {aptos : Aptos.Env AptosWorld}.


End WaitingFacts.

